(** * caller.cpp: session orchestration and streaming acquisition

    A shallow embedding of [src/caller.cpp], the sample program that
    connects to an e4 device, configures it, reads data packets and stores
    them in [data.dat], and of the properties the specification states
    about it.

    The program talks to the device through the [EDL] class of [edl.h] and
    to the outside through [std::cout], [Sleep], [fwrite] and [fclose].
    Every such call is recorded, in program order, as an [Event]; the
    device itself is an arbitrary state machine implementing the [EDL]
    interface.  A function of the program is a computation [M A] that maps
    the device state to an outcome, the new device state and the events it
    produced. *)

From Stdlib Require Import List NArith ZArith Bool String Ascii Lia.
From Stdlib Require Import Strings.Byte.
From Stdlib Require Import DecimalString.
Import ListNotations.

Local Open Scope N_scope.
Local Open Scope string_scope.
Local Open Scope list_scope.

(** ** Declarations of edl.h used by the program *)

(** Modelled from the spec: [EdlErrorCode_t] is declared in edl.h, which is
    not among the sources.  The program names three of its members; every
    other member is an [EdlOtherError]. *)
Inductive EdlErrorCode_t : Type :=
| EdlSuccess
| EdlDeviceNotConnectedError
| EdlNotEnoughAvailableDataError
| EdlOtherError (code : N).

(** Modelled from the spec: the command identifiers of edl.h that
    caller.cpp passes to [setCommand]. *)
Inductive EdlCommand_t : Type :=
| EdlCommandSamplingRate
| EdlCommandRange
| EdlCommandFinalBandwidth
| EdlCommandMainTrial
| EdlCommandVhold
| EdlCommandVamp
| EdlCommandTPeriod
| EdlCommandApplyProtocol
| EdlCommandCompAll.

(** Modelled from the spec: the radio-button selectors of edl.h that
    caller.cpp assigns to [radioId]. *)
Inductive EdlRadioId : Type :=
| EDL_RADIO_SAMPLING_RATE_5_KHZ
| EDL_RADIO_RANGE_200_PA
| EDL_RADIO_FINAL_BANDWIDTH_SR_2.

(** Modelled from the spec: the two button states of edl.h. *)
Inductive EdlButton : Type :=
| EDL_BUTTON_PRESSED
| EDL_BUTTON_RELEASED.

(** Modelled from the spec: [EdlCommandStruct_t] of edl.h, with the three
    fields the program assigns.  The program declares the struct without
    initialising it, so a field that was never assigned is [None].  The
    [value] field only ever receives the literals 0.0, 1.0, 50.0 and
    100.0, kept here as the integers they denote. *)
Record EdlCommandStruct_t : Type := mkCommandStruct {
  radioId : option EdlRadioId;
  value : option Z;
  buttonPressed : option EdlButton
}.

Definition uninitialised : EdlCommandStruct_t := mkCommandStruct None None None.

Definition set_radioId (r : EdlRadioId) (s : EdlCommandStruct_t) : EdlCommandStruct_t :=
  mkCommandStruct (Some r) (value s) (buttonPressed s).

Definition set_value (v : Z) (s : EdlCommandStruct_t) : EdlCommandStruct_t :=
  mkCommandStruct (radioId s) (Some v) (buttonPressed s).

Definition set_buttonPressed (b : EdlButton) (s : EdlCommandStruct_t) : EdlCommandStruct_t :=
  mkCommandStruct (radioId s) (value s) (Some b).

(** Modelled from the spec: [EdlDeviceStatus_t] of edl.h; the packet count
    is an [unsigned int]. *)
Record EdlDeviceStatus_t : Type := mkStatus {
  availableDataPackets : N;
  bufferOverflowFlag : bool;
  lostDataFlag : bool
}.

(** A [float] is kept as its object representation: the [sizeof(float)]
    = 4 bytes that [fwrite] copies to the file, in memory order. *)
Record float : Type := mkFloat {
  byte0 : byte; byte1 : byte; byte2 : byte; byte3 : byte
}.

Definition object_representation (x : float) : list byte :=
  [byte0 x; byte1 x; byte2 x; byte3 x].

(** [#define MINIMUM_DATA_PACKETS_TO_READ 10] *)
Definition MINIMUM_DATA_PACKETS_TO_READ : N := 10.

(** [unsigned int] arithmetic wraps around at 2^32. *)
Definition UINT_MODULUS : N := 2 ^ 32.

Definition wrap_uint (n : N) : N := n mod UINT_MODULUS.

Definition EdlErrorCode_eq_dec (a b : EdlErrorCode_t) : {a = b} + {a <> b}.
Proof. decide equality. apply N.eq_dec. Defined.

(** [a != b] on error codes. *)
Definition differs (a b : EdlErrorCode_t) : bool :=
  if EdlErrorCode_eq_dec a b then false else true.

(** [a == b] on error codes. *)
Definition equals (a b : EdlErrorCode_t) : bool :=
  if EdlErrorCode_eq_dec a b then true else false.

(** ** The device session

    The methods of the [EDL] class, as transitions of a device state [D].
    Out-parameters ([devices], [status], [readPacketsNum], [data]) are
    returned: the program never writes to them itself, so what a call
    leaves in them is a function of the device state alone.  The program
    passes its [EDL] object by value to its helper functions; all copies
    denote the one session, whose state is threaded through every call. *)
Class EDL (D : Type) : Type := {
  detectDevices : D -> EdlErrorCode_t * list string * D;
  connectDevice : string -> D -> EdlErrorCode_t * D;
  setCommand : EdlCommand_t -> EdlCommandStruct_t -> bool -> D -> D;
  purgeData : D -> EdlErrorCode_t * D;
  getDeviceStatus : D -> EdlErrorCode_t * EdlDeviceStatus_t * D;
  readData : N -> D -> EdlErrorCode_t * N * list float * D;
  disconnectDevice : D -> EdlErrorCode_t * D
}.

(** ** Events: what the program does, in program order *)

Inductive Event : Type :=
| EvDetectDevices (res : EdlErrorCode_t) (devices : list string)
| EvConnectDevice (name : string) (res : EdlErrorCode_t)
| EvSetCommand (c : EdlCommand_t) (s : EdlCommandStruct_t) (applyFlag : bool)
| EvPurgeData (res : EdlErrorCode_t)
| EvGetDeviceStatus (res : EdlErrorCode_t) (status : EdlDeviceStatus_t)
| EvReadData (requested : N) (res : EdlErrorCode_t) (readPacketsNum : N)
             (data : list float)
| EvDisconnectDevice (res : EdlErrorCode_t)
| EvSleep (ms : N)
| EvCout (text : string)
| EvFopen (name mode : string)
| EvFwrite (index : N) (x : float)
| EvFclose.

(** [std::vector::at] throws [std::out_of_range]; nothing in the program
    catches it. *)
Inductive Exception : Type :=
| out_of_range (index : N).

Inductive Outcome (A : Type) : Type :=
| Done (a : A)
| Thrown (e : Exception).
Arguments Done {A} a.
Arguments Thrown {A} e.

Record Run (D A : Type) : Type := mkRun {
  outcome : Outcome A;
  final : D;
  events : list Event
}.
Arguments mkRun {D A} _ _ _.
Arguments outcome {D A} _.
Arguments final {D A} _.
Arguments events {D A} _.

Definition M (D A : Type) : Type := D -> Run D A.

Definition ret {D A : Type} (a : A) : M D A :=
  fun d => mkRun (Done a) d [].

(** The run [r], after the events [ev]. *)
Definition prepend {D A : Type} (ev : list Event) (r : Run D A) : Run D A :=
  mkRun (outcome r) (final r) (ev ++ events r).

Definition bind {D A B : Type} (m : M D A) (k : A -> M D B) : M D B :=
  fun d =>
    let r := m d in
    match outcome r with
    | Done a => prepend (events r) (k a (final r))
    | Thrown e => mkRun (Thrown e) (final r) (events r)
    end.

Definition emit {D : Type} (e : Event) : M D unit :=
  fun d => mkRun (Done tt) d [e].

Definition throw {D A : Type} (e : Exception) : M D A :=
  fun d => mkRun (Thrown e) d [].

Declare Scope prog_scope.
Delimit Scope prog_scope with prog.
Notation "x <- m ;; k" := (bind m (fun x => k))
  (at level 61, m at next level, right associativity) : prog_scope.
Notation "' p <- m ;; k" := (bind m (fun p => k))
  (at level 61, p pattern, m at next level, right associativity) : prog_scope.
Notation "m ;; k" := (bind m (fun _ => k))
  (at level 61, right associativity) : prog_scope.
Local Open Scope prog_scope.

Definition when {D : Type} (b : bool) (m : M D unit) : M D unit :=
  if b then m else ret tt.

(** [for (i = start; ...; i++) body(i)], run for [count] iterations. *)
Fixpoint for_range {D : Type} (start : N) (count : nat) (body : N -> M D unit)
  : M D unit :=
  match count with
  | O => ret tt
  | S count' => body start ;; for_range (N.succ start) count' body
  end.

(** The end of line that [std::endl] writes. *)
Definition endl : string := String (ascii_of_nat 10) EmptyString.

Definition cout {D : Type} (text : string) : M D unit := emit (EvCout text).
Definition Sleep {D : Type} (ms : N) : M D unit := emit (EvSleep ms).
Definition fopen {D : Type} (name mode : string) : M D unit := emit (EvFopen name mode).
Definition fclose {D : Type} : M D unit := emit EvFclose.

(** [fwrite((unsigned char * )&data.at(index), sizeof(float), 1, f)]: the
    event keeps the index of the element whose bytes are written.  The
    program ignores what [fopen] and [fwrite] return; the file is taken to
    open and every write to succeed. *)
Definition fwrite {D : Type} (index : N) (x : float) : M D unit :=
  emit (EvFwrite index x).

(** [v.at(index)] *)
Definition vector_at {D A : Type} (v : list A) (index : N) : M D A :=
  match nth_error v (N.to_nat index) with
  | Some x => ret x
  | None => throw (out_of_range index)
  end.

(** [operator<<] on an [unsigned int]. *)
Definition decimal (n : N) : string := NilEmpty.string_of_uint (N.to_uint n).

Section Program.

Context {D : Type} {edl : EDL D}.

(** [EDL_CHANNEL_NUM] is a macro of edl.h; its value, converted to
    [unsigned int] by the comparison and the index arithmetic it appears
    in, is a parameter of the program. *)
Variable EDL_CHANNEL_NUM : N.

(** *** Calls into the device session *)

Definition call_detectDevices : M D (EdlErrorCode_t * list string) :=
  fun d => let '(res, devices, d') := detectDevices d in
           mkRun (Done (res, devices)) d' [EvDetectDevices res devices].

Definition call_connectDevice (name : string) : M D EdlErrorCode_t :=
  fun d => let '(res, d') := connectDevice name d in
           mkRun (Done res) d' [EvConnectDevice name res].

Definition call_setCommand (c : EdlCommand_t) (s : EdlCommandStruct_t)
  (applyFlag : bool) : M D unit :=
  fun d => mkRun (Done tt) (setCommand c s applyFlag d) [EvSetCommand c s applyFlag].

Definition call_purgeData : M D EdlErrorCode_t :=
  fun d => let '(res, d') := purgeData d in
           mkRun (Done res) d' [EvPurgeData res].

Definition call_getDeviceStatus : M D (EdlErrorCode_t * EdlDeviceStatus_t) :=
  fun d => let '(res, status, d') := getDeviceStatus d in
           mkRun (Done (res, status)) d' [EvGetDeviceStatus res status].

Definition call_readData (requested : N)
  : M D (EdlErrorCode_t * N * list float) :=
  fun d => let '(res, readPacketsNum, data, d') := readData requested d in
           mkRun (Done (res, readPacketsNum, data)) d'
                 [EvReadData requested res readPacketsNum data].

Definition call_disconnectDevice : M D EdlErrorCode_t :=
  fun d => let '(res, d') := disconnectDevice d in
           mkRun (Done res) d' [EvDisconnectDevice res].

(** *** configureWorkingModality (lines 18-33) *)

Definition configureWorkingModality : M D unit :=
  let commandStruct := uninitialised in
  let commandStruct := set_radioId EDL_RADIO_SAMPLING_RATE_5_KHZ commandStruct in
  call_setCommand EdlCommandSamplingRate commandStruct false ;;
  let commandStruct := set_radioId EDL_RADIO_RANGE_200_PA commandStruct in
  call_setCommand EdlCommandRange commandStruct false ;;
  let commandStruct := set_radioId EDL_RADIO_FINAL_BANDWIDTH_SR_2 commandStruct in
  call_setCommand EdlCommandFinalBandwidth commandStruct true.

(** *** compensateDigitalOffset (lines 38-63) *)

Definition compensateDigitalOffset : M D unit :=
  let commandStruct := uninitialised in
  let commandStruct := set_value 0 commandStruct in
  call_setCommand EdlCommandMainTrial commandStruct false ;;
  let commandStruct := set_value 0 commandStruct in
  call_setCommand EdlCommandVhold commandStruct false ;;
  call_setCommand EdlCommandApplyProtocol commandStruct true ;;
  let commandStruct := set_buttonPressed EDL_BUTTON_PRESSED commandStruct in
  call_setCommand EdlCommandCompAll commandStruct true ;;
  Sleep 5000 ;;
  let commandStruct := set_buttonPressed EDL_BUTTON_RELEASED commandStruct in
  call_setCommand EdlCommandCompAll commandStruct true.

(** *** setTriangularProtocol (lines 68-90) *)

Definition setTriangularProtocol : M D unit :=
  let commandStruct := uninitialised in
  let commandStruct := set_value 1 commandStruct in
  call_setCommand EdlCommandMainTrial commandStruct false ;;
  let commandStruct := set_value 0 commandStruct in
  call_setCommand EdlCommandVhold commandStruct false ;;
  let commandStruct := set_value 50 commandStruct in
  call_setCommand EdlCommandVamp commandStruct false ;;
  let commandStruct := set_value 100 commandStruct in
  call_setCommand EdlCommandTPeriod commandStruct false ;;
  call_setCommand EdlCommandApplyProtocol commandStruct true.

(** *** readAndSaveSomeData (lines 95-179) *)

(** The statement of line 165: the index is computed in [unsigned int],
    the element is fetched with the checked [at] and its bytes are
    written. *)
Definition save_value (data : list float) (readPacketsIdx channelIdx : N)
  : M D unit :=
  let index := wrap_uint (readPacketsIdx * EDL_CHANNEL_NUM + channelIdx) in
  x <- vector_at data index ;;
  fwrite index x.

(** The inner loop of lines 164-166: the [EDL_CHANNEL_NUM] values of
    packet [readPacketsIdx]. *)
Definition save_channels (data : list float) (readPacketsIdx : N) : M D unit :=
  for_range 0 (N.to_nat EDL_CHANNEL_NUM) (save_value data readPacketsIdx).

(** The loop nest of lines 163-167. *)
Definition save_packets (readPacketsNum : N) (data : list float) : M D unit :=
  for_range 0 (N.to_nat readPacketsNum) (save_channels data).

(** How one pass through the body of the [for] loop of line 124 ends:
    it falls through to [c++] with the current [res], or it executes a
    [return res]. *)
Inductive LoopStep : Type :=
| Continue (res : EdlErrorCode_t)
| Return (res : EdlErrorCode_t).

(** The body of the [for] loop, lines 125-174. *)
Definition poll_read_iteration : M D LoopStep :=
  '(res, status) <- call_getDeviceStatus ;;
  if differs res EdlSuccess then
    cout ("failed to get device status" ++ endl) ;;
    ret (Return res)
  else
    when (bufferOverflowFlag status)
      (cout (endl ++ "lost some data due to buffer overflow; increase MINIMUM_DATA_PACKETS_TO_READ to improve performance" ++ endl)) ;;
    when (lostDataFlag status)
      (cout (endl ++ "lost some data from the device; decrease sampling frequency or close unused applications to improve performance" ++ endl) ;;
       cout ("data loss may also occur immediately after sending a command to the device" ++ endl)) ;;
    if (MINIMUM_DATA_PACKETS_TO_READ <=? availableDataPackets status)%N then
      '(res, readPacketsNum, data) <- call_readData (availableDataPackets status) ;;
      if equals res EdlDeviceNotConnectedError then
        cout ("the device is not connected" ++ endl) ;;
        fclose ;;
        ret (Return res)
      else
        when (equals res EdlNotEnoughAvailableDataError)
          (cout ("not enough available data, only " ++ decimal readPacketsNum
                 ++ " packets have been read" ++ endl)) ;;
        save_packets readPacketsNum data ;;
        ret (Continue res)
    else
      Sleep 1 ;;
      ret (Continue res).

(** [for (c = 0; c < 1e3; c++)]: [budget] is the number of iterations
    left, [res] the current value of the variable [res]. *)
Fixpoint poll_read_loop (budget : nat) (res : EdlErrorCode_t) : M D LoopStep :=
  match budget with
  | O => ret (Continue res)
  | S budget' =>
      step <- poll_read_iteration ;;
      match step with
      | Return res' => ret (Return res')
      | Continue res' => poll_read_loop budget' res'
      end
  end.

Definition ITERATIONS : nat := 1000.

Definition readAndSaveSomeData : M D EdlErrorCode_t :=
  Sleep 500 ;;
  cout ("purge old data" ++ endl) ;;
  res <- call_purgeData ;;
  if differs res EdlSuccess then
    cout ("failed to purge data" ++ endl) ;;
    ret res
  else
    cout "collecting data... " ;;
    step <- poll_read_loop ITERATIONS res ;;
    match step with
    | Return res' => ret res'
    | Continue res' =>
        cout ("done" ++ endl) ;;
        ret res'
    end.

(** *** main (lines 184-269) *)

(** [while (c++ < 1e3)] of lines 250-260: [budget] is the number of
    attempts left, [res] the current value of the variable [res]. *)
Fixpoint disconnect_loop (budget : nat) (res : EdlErrorCode_t) : M D EdlErrorCode_t :=
  match budget with
  | O => ret res
  | S budget' =>
      res' <- call_disconnectDevice ;;
      if equals res' EdlSuccess then
        cout ("done" ++ endl) ;;
        ret res'
      else
        Sleep 1 ;;
        disconnect_loop budget' res'
  end.

Definition ATTEMPTS : nat := 1000.

(** Lines 249-268, the end of [main] once the data file is closed. *)
Definition disconnect_phase (res : EdlErrorCode_t) : M D Z :=
  cout "disconnecting... " ;;
  res <- disconnect_loop ATTEMPTS res ;;
  if differs res EdlSuccess then
    cout ("disconnection error" ++ endl) ;;
    ret (-1)%Z
  else
    ret 0%Z.

Definition main : M D Z :=
  '(res, devices) <- call_detectDevices ;;
  if differs res EdlSuccess then
    cout ("could not detect devices" ++ endl) ;;
    ret (-1)%Z
  else
    cout "first device found " ;;
    first <- vector_at devices 0 ;;
    cout (first ++ endl) ;;
    first <- vector_at devices 0 ;;
    res <- call_connectDevice first ;;
    cout "connecting... " ;;
    if differs res EdlSuccess then
      cout ("connection error" ++ endl) ;;
      ret (-1)%Z
    else
      cout ("done" ++ endl) ;;
      cout ("configuring working modality" ++ endl) ;;
      configureWorkingModality ;;
      cout "performing digital offset compensation... " ;;
      compensateDigitalOffset ;;
      cout ("done" ++ endl) ;;
      cout ("applying triangular test protocol" ++ endl) ;;
      setTriangularProtocol ;;
      fopen "data.dat" "wb+" ;;
      res <- readAndSaveSomeData ;;
      if differs res EdlSuccess then
        cout ("failed to read data" ++ endl) ;;
        ret (-1)%Z
      else
        fclose ;;
        disconnect_phase res.

End Program.

Arguments configureWorkingModality {D edl}.
Arguments compensateDigitalOffset {D edl}.
Arguments setTriangularProtocol {D edl}.
Arguments save_value {D} EDL_CHANNEL_NUM data readPacketsIdx channelIdx.
Arguments save_channels {D} EDL_CHANNEL_NUM data readPacketsIdx.
Arguments save_packets {D} EDL_CHANNEL_NUM readPacketsNum data.
Arguments poll_read_iteration {D edl} EDL_CHANNEL_NUM.
Arguments poll_read_loop {D edl} EDL_CHANNEL_NUM budget res.
Arguments readAndSaveSomeData {D edl} EDL_CHANNEL_NUM.
Arguments disconnect_loop {D edl} budget res.
Arguments disconnect_phase {D edl} res.
Arguments main {D edl} EDL_CHANNEL_NUM.

(** ** What an observer sees of a run *)

(** The [setCommand] calls, as the device session receives them. *)
Definition setCommand_calls (tr : list Event)
  : list (EdlCommand_t * EdlCommandStruct_t * bool) :=
  flat_map (fun e => match e with
                     | EvSetCommand c s a => [(c, s, a)]
                     | _ => []
                     end) tr.

(** The values written to the data file, in order. *)
Definition written (tr : list Event) : list float :=
  flat_map (fun e => match e with EvFwrite _ x => [x] | _ => [] end) tr.

(** The indices of the vector elements handed to [fwrite], in order. *)
Definition accessed (tr : list Event) : list N :=
  flat_map (fun e => match e with EvFwrite i _ => [i] | _ => [] end) tr.

(** The content of the data file: the bytes of the values written. *)
Definition sink (tr : list Event) : list byte :=
  flat_map object_representation (written tr).

(** The packet counts requested from [readData], in order. *)
Definition read_requests (tr : list Event) : list N :=
  flat_map (fun e => match e with EvReadData k _ _ _ => [k] | _ => [] end) tr.

Definition is_fclose (e : Event) : bool :=
  match e with EvFclose => true | _ => false end.

Definition is_fwrite (e : Event) : bool :=
  match e with EvFwrite _ _ => true | _ => false end.

Definition is_disconnect (e : Event) : bool :=
  match e with EvDisconnectDevice _ => true | _ => false end.

Definition is_not_connected_read (e : Event) : bool :=
  match e with
  | EvReadData _ EdlDeviceNotConnectedError _ _ => true
  | _ => false
  end.

(** How often the data file is closed. *)
Definition fclose_count (tr : list Event) : nat :=
  List.length (filter is_fclose tr).

(** How often [disconnectDevice] is called. *)
Definition disconnect_attempts (tr : list Event) : nat :=
  List.length (filter is_disconnect tr).

(** The results of the calls whose result the acquisition function
    assigns to its variable [res], in order. *)
Definition call_results (tr : list Event) : list EdlErrorCode_t :=
  flat_map (fun e => match e with
                     | EvPurgeData r | EvGetDeviceStatus r _ | EvReadData _ r _ _ => [r]
                     | _ => []
                     end) tr.

(** The results of the device-status queries, in order. *)
Definition status_results (tr : list Event) : list EdlErrorCode_t :=
  flat_map (fun e => match e with EvGetDeviceStatus r _ => [r] | _ => [] end) tr.

(** The exit status of the process, when [main] returns. *)
Definition exit_status {D : Type} (r : Run D Z) : option Z :=
  match outcome r with
  | Done z => Some z
  | Thrown _ => None
  end.

(** ** A scripted device session

    A test double of the [EDL] class: the answer to the i-th call of a
    method is given by a function of i. *)
Record Mock : Type := mkMock {
  on_detect : EdlErrorCode_t * list string;
  on_connect : EdlErrorCode_t;
  on_purge : EdlErrorCode_t;
  on_status : nat -> EdlErrorCode_t * EdlDeviceStatus_t;
  on_read : nat -> N -> EdlErrorCode_t * N * list float;
  on_disconnect : nat -> EdlErrorCode_t;
  status_queries : nat;
  reads : nat;
  disconnects : nat
}.

#[export] Instance Mock_EDL : EDL Mock := {
  detectDevices m := (fst (on_detect m), snd (on_detect m), m);
  connectDevice _ m := (on_connect m, m);
  setCommand _ _ _ m := m;
  purgeData m := (on_purge m, m);
  getDeviceStatus m :=
    let '(res, status) := on_status m (status_queries m) in
    (res, status,
     mkMock (on_detect m) (on_connect m) (on_purge m) (on_status m) (on_read m)
            (on_disconnect m) (S (status_queries m)) (reads m) (disconnects m));
  readData requested m :=
    let '(res, n, data) := on_read m (reads m) requested in
    (res, n, data,
     mkMock (on_detect m) (on_connect m) (on_purge m) (on_status m) (on_read m)
            (on_disconnect m) (status_queries m) (S (reads m)) (disconnects m));
  disconnectDevice m :=
    (on_disconnect m (disconnects m),
     mkMock (on_detect m) (on_connect m) (on_purge m) (on_status m) (on_read m)
            (on_disconnect m) (status_queries m) (reads m) (S (disconnects m)))
}.

(** A session in which everything succeeds and no data ever arrives. *)
Definition idle : Mock :=
  mkMock (EdlSuccess, ["e4"]) EdlSuccess EdlSuccess
         (fun _ => (EdlSuccess, mkStatus 0 false false))
         (fun _ k => (EdlSuccess, 0, []))
         (fun _ => EdlSuccess)
         0 0 0.

Definition with_purge (res : EdlErrorCode_t) (m : Mock) : Mock :=
  mkMock (on_detect m) (on_connect m) res (on_status m) (on_read m)
         (on_disconnect m) (status_queries m) (reads m) (disconnects m).

Definition with_status (f : nat -> EdlErrorCode_t * EdlDeviceStatus_t) (m : Mock) : Mock :=
  mkMock (on_detect m) (on_connect m) (on_purge m) f (on_read m)
         (on_disconnect m) (status_queries m) (reads m) (disconnects m).

Definition with_read (f : nat -> N -> EdlErrorCode_t * N * list float) (m : Mock) : Mock :=
  mkMock (on_detect m) (on_connect m) (on_purge m) (on_status m) f
         (on_disconnect m) (status_queries m) (reads m) (disconnects m).

Definition with_disconnect (f : nat -> EdlErrorCode_t) (m : Mock) : Mock :=
  mkMock (on_detect m) (on_connect m) (on_purge m) (on_status m) (on_read m)
         f (status_queries m) (reads m) (disconnects m).

(** A sample value: the four bytes [b, 0, 0, 0]. *)
Definition sample (b : byte) : float := mkFloat b x00 x00 x00.

(** ** The vocabulary of the statements *)

(** A phase stacks every request but the last and applies with the last:
    the calls are some requests with [applyFlag = false] followed by one
    request with [applyFlag = true]. *)
Definition stacked_then_applied
  (calls : list (EdlCommand_t * EdlCommandStruct_t * bool)) : Prop :=
  exists stacked applying,
    calls = stacked ++ [applying] /\
    snd applying = true /\
    Forall (fun call => snd call = false) stacked.

(** The device state after a list of [setCommand] calls, made in order. *)
Definition deliver {D : Type} {edl : EDL D}
  (calls : list (EdlCommand_t * EdlCommandStruct_t * bool)) (d : D) : D :=
  fold_left (fun d call => setCommand (fst (fst call)) (snd (fst call)) (snd call) d)
            calls d.

Definition workingModality_calls : list (EdlCommand_t * EdlCommandStruct_t * bool) :=
  [ (EdlCommandSamplingRate,
     mkCommandStruct (Some EDL_RADIO_SAMPLING_RATE_5_KHZ) None None, false);
    (EdlCommandRange,
     mkCommandStruct (Some EDL_RADIO_RANGE_200_PA) None None, false);
    (EdlCommandFinalBandwidth,
     mkCommandStruct (Some EDL_RADIO_FINAL_BANDWIDTH_SR_2) None None, true) ].

Definition triangularProtocol_calls : list (EdlCommand_t * EdlCommandStruct_t * bool) :=
  [ (EdlCommandMainTrial, mkCommandStruct None (Some 1%Z) None, false);
    (EdlCommandVhold, mkCommandStruct None (Some 0%Z) None, false);
    (EdlCommandVamp, mkCommandStruct None (Some 50%Z) None, false);
    (EdlCommandTPeriod, mkCommandStruct None (Some 100%Z) None, false);
    (EdlCommandApplyProtocol, mkCommandStruct None (Some 100%Z) None, true) ].

(** The session after [k] calls of [disconnectDevice]. *)
Fixpoint after_disconnects {D : Type} {edl : EDL D} (k : nat) (d : D) : D :=
  match k with
  | O => d
  | S k' => after_disconnects k' (snd (disconnectDevice d))
  end.

(** The result of the call of [disconnectDevice] that follows [k] earlier
    ones. *)
Definition disconnect_result {D : Type} {edl : EDL D} (k : nat) (d : D)
  : EdlErrorCode_t :=
  fst (disconnectDevice (after_disconnects k d)).

(** The indices [start, start + 1, ...], [count] of them. *)
Fixpoint N_range (start : N) (count : nat) : list N :=
  match count with
  | O => []
  | S count' => start :: N_range (N.succ start) count'
  end.

Definition float_zero : float := mkFloat x00 x00 x00 x00.

(** The [fwrite] of the element that the index expression selects when
    its exact value is [q]. *)
Definition write_of (data : list float) (q : N) : Event :=
  EvFwrite (wrap_uint q) (nth (N.to_nat (wrap_uint q)) data float_zero).

(** The index that the expression of line 165 yields for the exact value
    [q] lies within the vector. *)
Definition in_bounds (data : list float) (q : N) : Prop :=
  (N.to_nat (wrap_uint q) < List.length data)%nat.

(** The contract of [readData] that the comment of lines 160-162 states:
    the vector holds [readPacketsNum] packets of [EDL_CHANNEL_NUM] values
    (at least). *)
Definition holds_packets (EDL_CHANNEL_NUM : N) (data : list float)
  (readPacketsNum : N) : Prop :=
  (N.to_nat readPacketsNum * N.to_nat EDL_CHANNEL_NUM <= List.length data)%nat.

(** What a status snapshot makes the program print: the advisory lines of
    lines 134-141. *)
Definition advisories (status : EdlDeviceStatus_t) : list Event :=
  (if bufferOverflowFlag status
   then [EvCout (endl ++ "lost some data due to buffer overflow; increase MINIMUM_DATA_PACKETS_TO_READ to improve performance" ++ endl)]
   else []) ++
  (if lostDataFlag status
   then [EvCout (endl ++ "lost some data from the device; decrease sampling frequency or close unused applications to improve performance" ++ endl);
         EvCout ("data loss may also occur immediately after sending a command to the device" ++ endl)]
   else []).

(** The line printed when a read returns fewer packets than requested
    (line 157). *)
Definition shortfall (res : EdlErrorCode_t) (readPacketsNum : N) : list Event :=
  if equals res EdlNotEnoughAvailableDataError
  then [EvCout ("not enough available data, only " ++ decimal readPacketsNum
                ++ " packets have been read" ++ endl)]
  else [].

(** Events that neither report a lost connection nor close the file. *)
Definition calm (e : Event) : bool :=
  negb (is_not_connected_read e || is_fclose e).

(** Events other than a read that reports a lost connection. *)
Definition connected (e : Event) : bool := negb (is_not_connected_read e).

(** A trace that ends with a read reporting a lost connection, the
    message of line 149 and the [fclose] of line 150, and has neither such
    a read nor an [fclose] before. *)
Definition ends_not_connected (tr : list Event) : Prop :=
  exists pre k m data,
    tr = pre ++ [EvReadData k EdlDeviceNotConnectedError m data;
                 EvCout ("the device is not connected" ++ endl); EvFclose] /\
    forallb calm pre = true.

(** The session [edl], with the two advisory flags of every status
    snapshot replaced: the i-th status query reports the flags
    [flags i].  Everything else, the packet count included, is what
    [edl] answers. *)
Definition flagged {D : Type} (edl : EDL D) (flags : nat -> bool * bool)
  : EDL (D * nat) := {|
  detectDevices s :=
    let '(res, devices, d') := detectDevices (fst s) in (res, devices, (d', snd s));
  connectDevice name s :=
    let '(res, d') := connectDevice name (fst s) in (res, (d', snd s));
  setCommand c cs applyFlag s := (setCommand c cs applyFlag (fst s), snd s);
  purgeData s :=
    let '(res, d') := purgeData (fst s) in (res, (d', snd s));
  getDeviceStatus s :=
    let '(res, status, d') := getDeviceStatus (fst s) in
    (res,
     mkStatus (availableDataPackets status) (fst (flags (snd s))) (snd (flags (snd s))),
     (d', S (snd s)));
  readData requested s :=
    let '(res, n, data, d') := readData requested (fst s) in (res, n, data, (d', snd s));
  disconnectDevice s :=
    let '(res, d') := disconnectDevice (fst s) in (res, (d', snd s))
|}.

(** The events on the data path: everything but the console output and
    the status snapshots. *)
Definition data_path (e : Event) : bool :=
  match e with
  | EvCout _ | EvGetDeviceStatus _ _ => false
  | _ => true
  end.

(** Two runs agree when they end alike, leave the session in the same
    state and show the same events on the data path. *)
Definition agree {S A : Type} (r1 r2 : Run S A) : Prop :=
  outcome r1 = outcome r2 /\
  final r1 = final r2 /\
  filter data_path (events r1) = filter data_path (events r2).

(** The value a step leaves in [res]. *)
Definition carried (o : Outcome LoopStep) : option EdlErrorCode_t :=
  match o with
  | Done (Continue res) | Done (Return res) => Some res
  | Thrown _ => None
  end.

(** The conditions the program treats as fatal where it checks them: a
    failed detection, connection, purge or status query, and a read that
    reports a lost connection. *)
Definition fatal (e : Event) : bool :=
  match e with
  | EvDetectDevices res _ => differs res EdlSuccess
  | EvConnectDevice _ res => differs res EdlSuccess
  | EvPurgeData res => differs res EdlSuccess
  | EvGetDeviceStatus res _ => differs res EdlSuccess
  | EvReadData _ res _ _ => equals res EdlDeviceNotConnectedError
  | _ => false
  end.

Definition is_fopen (e : Event) : bool :=
  match e with EvFopen _ _ => true | _ => false end.

(** ** Further vocabulary: the whole run *)

(** The [setCommand] calls of [compensateDigitalOffset], in program
    order.  The struct keeps the fields assigned earlier, so the
    compensation commands still carry [value = 0]. *)
Definition compensation_calls : list (EdlCommand_t * EdlCommandStruct_t * bool) :=
  [ (EdlCommandMainTrial, mkCommandStruct None (Some 0%Z) None, false);
    (EdlCommandVhold, mkCommandStruct None (Some 0%Z) None, false);
    (EdlCommandApplyProtocol, mkCommandStruct None (Some 0%Z) None, true);
    (EdlCommandCompAll, mkCommandStruct None (Some 0%Z) (Some EDL_BUTTON_PRESSED), true);
    (EdlCommandCompAll, mkCommandStruct None (Some 0%Z) (Some EDL_BUTTON_RELEASED), true) ].

Definition command_event (call : EdlCommand_t * EdlCommandStruct_t * bool) : Event :=
  EvSetCommand (fst (fst call)) (snd (fst call)) (snd call).

(** What [main] does between a successful connection and the call of
    [readAndSaveSomeData] (lines 216-233). *)
Definition setup_events : list Event :=
  [EvCout ("done" ++ endl); EvCout ("configuring working modality" ++ endl)] ++
  map command_event workingModality_calls ++
  [EvCout "performing digital offset compensation... "] ++
  map command_event (firstn 4 compensation_calls) ++
  [EvSleep 5000] ++
  map command_event (skipn 4 compensation_calls) ++
  [EvCout ("done" ++ endl); EvCout ("applying triangular test protocol" ++ endl)] ++
  map command_event triangularProtocol_calls ++
  [EvFopen "data.dat" "wb+"].

(** What [main] does up to and including the connection attempt
    (lines 197-210), when a device was found. *)
Definition connection_events (res0 : EdlErrorCode_t) (devices : list string)
  (first : string) (res1 : EdlErrorCode_t) : list Event :=
  [EvDetectDevices res0 devices; EvCout "first device found ";
   EvCout (first ++ endl); EvConnectDevice first res1; EvCout "connecting... "].

(** The session once the three configuration phases have run. *)
Definition configured {D : Type} {edl : EDL D} (d : D) : D :=
  deliver triangularProtocol_calls
    (deliver compensation_calls (deliver workingModality_calls d)).

(** The reads that the status snapshots of a trace call for: one for
    each successful status query that reports at least
    [MINIMUM_DATA_PACKETS_TO_READ] packets, of exactly that many. *)
Definition due_reads (tr : list Event) : list N :=
  flat_map (fun e => match e with
                     | EvGetDeviceStatus res status =>
                         if differs res EdlSuccess then []
                         else if (MINIMUM_DATA_PACKETS_TO_READ <=? availableDataPackets status)%N
                              then [availableDataPackets status]
                              else []
                     | _ => []
                     end) tr.

(** The time spent in [Sleep], in milliseconds. *)
Definition slept (tr : list Event) : N :=
  fold_right (fun e acc => match e with EvSleep ms => ms + acc | _ => acc end) 0 tr.

(** The results of the calls of [disconnectDevice], in order. *)
Definition disconnect_results (tr : list Event) : list EdlErrorCode_t :=
  flat_map (fun e => match e with EvDisconnectDevice r => [r] | _ => [] end) tr.

(** The discipline of the data file: [file_ok closed tr] holds when the
    trace neither writes to the file nor closes it once it is closed,
    [closed] telling whether it is closed at the start. *)
Fixpoint file_ok (closed : bool) (tr : list Event) : bool :=
  match tr with
  | [] => true
  | EvFclose :: tr' => negb closed && file_ok true tr'
  | EvFwrite _ _ :: tr' => negb closed && file_ok closed tr'
  | _ :: tr' => file_ok closed tr'
  end.

(** The values that a read hands over for storage: the first
    [readPacketsNum * EDL_CHANNEL_NUM] of its vector, unless it reports a
    lost connection. *)
Definition batch_of (EDL_CHANNEL_NUM : N) (e : Event) : list float :=
  match e with
  | EvReadData _ res readPacketsNum data =>
      if equals res EdlDeviceNotConnectedError then []
      else firstn (N.to_nat readPacketsNum * N.to_nat EDL_CHANNEL_NUM) data
  | _ => []
  end.

Definition batches (EDL_CHANNEL_NUM : N) (tr : list Event) : list float :=
  flat_map (batch_of EDL_CHANNEL_NUM) tr.

(** Every read of the trace that is to be stored returned a vector that
    holds its packets, fewer than 2^32 values in all. *)
Definition reads_well_formed (EDL_CHANNEL_NUM : N) (tr : list Event) : bool :=
  forallb (fun e => match e with
                    | EvReadData _ res readPacketsNum data =>
                        equals res EdlDeviceNotConnectedError ||
                        ((N.to_nat readPacketsNum * N.to_nat EDL_CHANNEL_NUM
                          <=? List.length data)%nat &&
                         (readPacketsNum * EDL_CHANNEL_NUM <=? UINT_MODULUS)%N)
                    | _ => true
                    end) tr.

(** A status query that failed. *)
Definition is_failed_status (e : Event) : bool :=
  match e with
  | EvGetDeviceStatus res _ => differs res EdlSuccess
  | _ => false
  end.

(** Every status query of the trace succeeded and reported fewer than
    [MINIMUM_DATA_PACKETS_TO_READ] packets. *)
Definition polls_below_threshold (tr : list Event) : bool :=
  forallb (fun e => match e with
                    | EvGetDeviceStatus res status =>
                        equals res EdlSuccess &&
                        (availableDataPackets status <? MINIMUM_DATA_PACKETS_TO_READ)%N
                    | _ => true
                    end) tr.

(** Console output and writes to the file: events that involve neither
    the device nor the clock. *)
Definition passive (e : Event) : bool :=
  match e with
  | EvCout _ | EvFwrite _ _ => true
  | _ => false
  end.

(** The events of the disconnect phase: attempts, waits and messages. *)
Definition teardown (e : Event) : bool :=
  match e with
  | EvDisconnectDevice _ | EvSleep _ | EvCout _ => true
  | _ => false
  end.

(** The events [readAndSaveSomeData] can produce. *)
Definition acquisition_event (e : Event) : bool :=
  match e with
  | EvSleep _ | EvCout _ | EvPurgeData _ | EvGetDeviceStatus _ _
  | EvReadData _ _ _ _ | EvFwrite _ _ | EvFclose => true
  | _ => false
  end.


(** All the commands of the three configuration phases, in the order in
    which [main] runs them. *)
Definition all_commands : list (EdlCommand_t * EdlCommandStruct_t * bool) :=
  workingModality_calls ++ compensation_calls ++ triangularProtocol_calls.

(** ** Sessions used as examples *)

(** A session whose disconnection fails [j] times before it succeeds. *)
Definition reluctant (j : nat) : Mock :=
  with_disconnect (fun i => if (i <? j)%nat then EdlOtherError 1 else EdlSuccess) idle.

(** A session that never disconnects. *)
Definition stuck : Mock := with_disconnect (fun _ => EdlOtherError 1) idle.

(** A batch of two packets of eight channels, followed by one value that
    belongs to no packet. *)
Definition two_packets : list float :=
  repeat (sample x01) 8 ++ repeat (sample x02) 8 ++ [sample xff].

(** A batch whose size exceeds the range of [unsigned int]: 2^29 + 1
    packets of eight channels, 2^32 + 8 values. *)
Definition overflowing_packets : N := 536870913.

Definition overflowing_batch : list float :=
  repeat float_zero (N.to_nat 4294967304).

(** A session that always reports fifteen packets and delivers what is
    requested, eight values per packet. *)
Definition burst : Mock :=
  with_read (fun _ k => (EdlSuccess, k, repeat (sample x01) (N.to_nat k * 8)))
            (with_status (fun _ => (EdlSuccess, mkStatus 15 true false)) idle).

(** A session whose first read finds the device gone. *)
Definition unplugged : Mock :=
  with_read (fun _ _ => (EdlDeviceNotConnectedError, 0, []))
            (with_status (fun _ => (EdlSuccess, mkStatus 12 false true)) idle).

(** A session in which everything succeeds; no data is available until
    the last of the 1000 polls, which reports ten packets, and the read
    that follows delivers one packet and reports that not enough data
    were available. *)
Definition final_short : Mock :=
  with_read (fun _ _ => (EdlNotEnoughAvailableDataError, 1, repeat (sample x01) 8))
            (with_status (fun i => (EdlSuccess,
                                    mkStatus (if (i =? 999)%nat then 10 else 0) false false))
                         idle).

(** A session whose status query fails. *)
Definition status_fails : Mock :=
  with_status (fun _ => (EdlOtherError 1, mkStatus 0 false false)) idle.



(** A session whose first poll reports ten packets while the read that
    follows delivers only one; no data arrives afterwards. *)
Definition short_once : Mock :=
  with_read (fun _ _ => (EdlNotEnoughAvailableDataError, 1, repeat (sample x01) 8))
            (with_status (fun i => (EdlSuccess,
                                    mkStatus (if (i =? 0)%nat then 10 else 0) false false))
                         idle).

(** A vector announced as two packets of eight values that holds only
    eleven. *)
Definition eleven_values : list float := repeat (sample x07) 11.

(** * Properties *)

(** ** Running a computation *)

Section Runs.

Context {D : Type}.

Lemma prepend_prepend {A : Type} (ev ev' : list Event) (r : Run D A) :
  prepend ev (prepend ev' r) = prepend (ev ++ ev') r.
Proof. unfold prepend. cbn [outcome final events]. rewrite app_assoc. reflexivity. Qed.

Lemma prepend_nil {A : Type} (r : Run D A) : prepend [] r = r.
Proof. destruct r; reflexivity. Qed.

Lemma events_prepend {A : Type} (ev : list Event) (r : Run D A) :
  events (prepend ev r) = ev ++ events r.
Proof. reflexivity. Qed.

Lemma bind_Done {A B : Type} (m : M D A) (k : A -> M D B) (d d' : D) (a : A)
  (ev : list Event) :
  m d = mkRun (Done a) d' ev ->
  bind m k d = prepend ev (k a d').
Proof. intros H. unfold bind. rewrite H. reflexivity. Qed.

Lemma bind_run {A B : Type} (m : M D A) (k : A -> M D B) (d : D) :
  bind m k d =
  match outcome (m d) with
  | Done a => prepend (events (m d)) (k a (final (m d)))
  | Thrown e => mkRun (Thrown e) (final (m d)) (events (m d))
  end.
Proof. reflexivity. Qed.

Lemma bind_emit {B : Type} (e : Event) (k : unit -> M D B) (d : D) :
  bind (emit e) k d = prepend [e] (k tt d).
Proof. reflexivity. Qed.

Lemma bind_ret {A B : Type} (a : A) (k : A -> M D B) (d : D) :
  bind (ret a) k d = k a d.
Proof. unfold bind. cbn [ret outcome final events]. apply prepend_nil. Qed.

Lemma bind_throw {A B : Type} (e : Exception) (k : A -> M D B) (d : D) :
  bind (throw e) k d = mkRun (Thrown e) d [].
Proof. reflexivity. Qed.

Lemma bind_assoc {A B C : Type} (m : M D A) (k : A -> M D B) (h : B -> M D C) (d : D) :
  bind (bind m k) h d = bind m (fun a => bind (k a) h) d.
Proof.
  unfold bind. destruct (m d) as [[a|e] d1 ev1]; cbn [outcome final events prepend];
    [|reflexivity].
  destruct (k a d1) as [[b|e] d2 ev2]; cbn [outcome final events prepend];
    [|reflexivity].
  symmetry. apply prepend_prepend.
Qed.

(** The events of a sequence are those of its parts, in order. *)
Lemma events_bind {A B : Type} (m : M D A) (k : A -> M D B) (d : D) :
  events (bind m k d) =
  events (m d) ++ match outcome (m d) with
                  | Done a => events (k a (final (m d)))
                  | Thrown _ => []
                  end.
Proof.
  unfold bind. destruct (outcome (m d)); simpl; auto using app_nil_r.
Qed.

End Runs.

(** Calling the device: the call's event, then the rest of the program
    in the new device state. *)
Section Calls.

Context {D : Type} {edl : EDL D}.

Lemma bind_call_detectDevices {B : Type}
  (k : EdlErrorCode_t * list string -> M D B) (d : D) :
  bind call_detectDevices k d =
  let '(res, devices, d') := detectDevices d in
  prepend [EvDetectDevices res devices] (k (res, devices) d').
Proof.
  unfold bind, call_detectDevices. destruct (detectDevices d) as [[res devices] d'].
  reflexivity.
Qed.

Lemma bind_call_connectDevice {B : Type} (name : string)
  (k : EdlErrorCode_t -> M D B) (d : D) :
  bind (call_connectDevice name) k d =
  let '(res, d') := connectDevice name d in
  prepend [EvConnectDevice name res] (k res d').
Proof.
  unfold bind, call_connectDevice. destruct (connectDevice name d) as [res d'].
  reflexivity.
Qed.

Lemma bind_call_setCommand {B : Type} (c : EdlCommand_t) (s : EdlCommandStruct_t)
  (applyFlag : bool) (k : unit -> M D B) (d : D) :
  bind (call_setCommand c s applyFlag) k d =
  prepend [EvSetCommand c s applyFlag] (k tt (setCommand c s applyFlag d)).
Proof. reflexivity. Qed.

Lemma bind_call_purgeData {B : Type} (k : EdlErrorCode_t -> M D B) (d : D) :
  bind call_purgeData k d =
  let '(res, d') := purgeData d in prepend [EvPurgeData res] (k res d').
Proof.
  unfold bind, call_purgeData. destruct (purgeData d) as [res d']. reflexivity.
Qed.

Lemma bind_call_getDeviceStatus {B : Type}
  (k : EdlErrorCode_t * EdlDeviceStatus_t -> M D B) (d : D) :
  bind call_getDeviceStatus k d =
  let '(res, status, d') := getDeviceStatus d in
  prepend [EvGetDeviceStatus res status] (k (res, status) d').
Proof.
  unfold bind, call_getDeviceStatus. destruct (getDeviceStatus d) as [[res status] d'].
  reflexivity.
Qed.

Lemma bind_call_readData {B : Type} (requested : N)
  (k : EdlErrorCode_t * N * list float -> M D B) (d : D) :
  bind (call_readData requested) k d =
  let '(res, readPacketsNum, data, d') := readData requested d in
  prepend [EvReadData requested res readPacketsNum data] (k (res, readPacketsNum, data) d').
Proof.
  unfold bind, call_readData.
  destruct (readData requested d) as [[[res n] data] d']. reflexivity.
Qed.

Lemma bind_call_disconnectDevice {B : Type} (k : EdlErrorCode_t -> M D B) (d : D) :
  bind call_disconnectDevice k d =
  let '(res, d') := disconnectDevice d in prepend [EvDisconnectDevice res] (k res d').
Proof.
  unfold bind, call_disconnectDevice. destruct (disconnectDevice d) as [res d'].
  reflexivity.
Qed.

End Calls.

(** Run the straight-line part of a program. *)
Ltac run :=
  repeat (first [ rewrite bind_assoc | rewrite bind_emit | rewrite bind_ret
                | rewrite bind_call_setCommand ];
          cbv beta).

(** ** Projections of a trace distribute over its parts *)

Lemma written_app (t1 t2 : list Event) : written (t1 ++ t2) = written t1 ++ written t2.
Proof. apply flat_map_app. Qed.

Lemma sink_app (t1 t2 : list Event) : sink (t1 ++ t2) = sink t1 ++ sink t2.
Proof. unfold sink. rewrite written_app. apply flat_map_app. Qed.

Lemma read_requests_app (t1 t2 : list Event) :
  read_requests (t1 ++ t2) = read_requests t1 ++ read_requests t2.
Proof. apply flat_map_app. Qed.

Lemma fclose_count_app (t1 t2 : list Event) :
  fclose_count (t1 ++ t2) = (fclose_count t1 + fclose_count t2)%nat.
Proof. unfold fclose_count. rewrite filter_app. apply length_app. Qed.

Lemma disconnect_attempts_app (t1 t2 : list Event) :
  disconnect_attempts (t1 ++ t2) = (disconnect_attempts t1 + disconnect_attempts t2)%nat.
Proof. unfold disconnect_attempts. rewrite filter_app. apply length_app. Qed.


(** ** Command sequencing (configureWorkingModality, setTriangularProtocol) *)

(** C8.  In the working-modality configuration and in the arming of the
    triangular protocol, the device session receives the [setCommand]
    calls in exactly program order and nothing else happens in between;
    every call but the last carries [applyFlag = false], and the single
    applying call comes last, after all stacked requests of the phase. *)
Theorem C8_commands_in_program_order :
  forall (D : Type) (edl : EDL D) (d : D),
    (let r := configureWorkingModality d in
     outcome r = Done tt /\
     events r = map (fun call => EvSetCommand (fst (fst call)) (snd (fst call)) (snd call))
                    workingModality_calls /\
     setCommand_calls (events r) = workingModality_calls /\
     final r = deliver workingModality_calls d /\
     stacked_then_applied (setCommand_calls (events r))) /\
    (let r := setTriangularProtocol d in
     outcome r = Done tt /\
     events r = map (fun call => EvSetCommand (fst (fst call)) (snd (fst call)) (snd call))
                    triangularProtocol_calls /\
     setCommand_calls (events r) = triangularProtocol_calls /\
     final r = deliver triangularProtocol_calls d /\
     stacked_then_applied (setCommand_calls (events r))).
Proof.
  intros D edl d. split; cbv zeta.
  - repeat split; try reflexivity.
    exists (firstn 2 workingModality_calls), (nth 2 workingModality_calls
      (EdlCommandCompAll, uninitialised, false)).
    repeat split; try reflexivity.
    repeat constructor.
  - repeat split; try reflexivity.
    exists (firstn 4 triangularProtocol_calls), (nth 4 triangularProtocol_calls
      (EdlCommandCompAll, uninitialised, false)).
    repeat split; try reflexivity.
    repeat constructor.
Qed.

(** ** The disconnect phase (lines 249-268 of main) *)

Section Disconnect.

Context {D : Type} {edl : EDL D}.

Lemma equals_true (a b : EdlErrorCode_t) : equals a b = true <-> a = b.
Proof. unfold equals. destruct (EdlErrorCode_eq_dec a b); split; congruence. Qed.

Lemma equals_false (a b : EdlErrorCode_t) : equals a b = false <-> a <> b.
Proof. unfold equals. destruct (EdlErrorCode_eq_dec a b); split; congruence. Qed.

Lemma differs_true (a b : EdlErrorCode_t) : differs a b = true <-> a <> b.
Proof. unfold differs. destruct (EdlErrorCode_eq_dec a b); split; congruence. Qed.

Lemma disconnect_loop_step (budget : nat) (res res' : EdlErrorCode_t) (d d' : D) :
  disconnectDevice d = (res', d') ->
  disconnect_loop (S budget) res d =
  if equals res' EdlSuccess then
    mkRun (Done res') d' [EvDisconnectDevice res'; EvCout ("done" ++ endl)]
  else
    let r := disconnect_loop budget res' d' in
    mkRun (outcome r) (final r) (EvDisconnectDevice res' :: EvSleep 1 :: events r).
Proof.
  intros E. simpl. unfold bind, call_disconnectDevice. rewrite E. simpl.
  destruct (equals res' EdlSuccess); reflexivity.
Qed.

Lemma disconnect_result_S (i : nat) (d d' : D) (res' : EdlErrorCode_t) :
  disconnectDevice d = (res', d') ->
  disconnect_result (S i) d = disconnect_result i d'.
Proof. intros E. unfold disconnect_result. simpl. rewrite E. reflexivity. Qed.

Lemma disconnect_result_0 (d d' : D) (res' : EdlErrorCode_t) :
  disconnectDevice d = (res', d') ->
  disconnect_result 0 d = res'.
Proof. intros E. unfold disconnect_result. simpl. rewrite E. reflexivity. Qed.

Lemma disconnect_loop_succeeds (j : nat) :
  forall (budget : nat) (res : EdlErrorCode_t) (d : D),
    (j < budget)%nat ->
    (forall i, (i < j)%nat -> disconnect_result i d <> EdlSuccess) ->
    disconnect_result j d = EdlSuccess ->
    outcome (disconnect_loop budget res d) = Done EdlSuccess /\
    disconnect_attempts (events (disconnect_loop budget res d)) = S j.
Proof.
  induction j as [|j IH]; intros budget res d Hlt Hfail Hok;
    (destruct budget as [|budget]; [lia|]);
    destruct (disconnectDevice d) as [res' d'] eqn:E;
    rewrite (disconnect_loop_step _ _ _ _ _ E).
  - rewrite (disconnect_result_0 _ _ _ E) in Hok. subst res'. simpl. auto.
  - assert (H0 : res' <> EdlSuccess).
    { rewrite <- (disconnect_result_0 _ _ _ E). apply Hfail. lia. }
    apply equals_false in H0. rewrite H0. cbv zeta.
    destruct (IH budget res' d') as [IH1 IH2].
    + lia.
    + intros i Hi. rewrite <- (disconnect_result_S _ _ _ _ E). apply Hfail. lia.
    + rewrite <- (disconnect_result_S _ _ _ _ E). exact Hok.
    + simpl. split; [exact IH1|].
      unfold disconnect_attempts in *. simpl. rewrite IH2. reflexivity.
Qed.

Lemma disconnect_loop_exhausts (budget : nat) :
  forall (res : EdlErrorCode_t) (d : D),
    (0 < budget)%nat ->
    (forall i, (i < budget)%nat -> disconnect_result i d <> EdlSuccess) ->
    exists res',
      res' <> EdlSuccess /\
      outcome (disconnect_loop budget res d) = Done res' /\
      disconnect_attempts (events (disconnect_loop budget res d)) = budget.
Proof.
  induction budget as [|budget IH]; intros res d Hpos Hfail; [lia|].
  destruct (disconnectDevice d) as [res' d'] eqn:E.
  rewrite (disconnect_loop_step _ _ _ _ _ E).
  assert (H0 : res' <> EdlSuccess).
  { rewrite <- (disconnect_result_0 _ _ _ E). apply Hfail. lia. }
  pose proof H0 as H0'. apply equals_false in H0'. rewrite H0'. cbv zeta.
  destruct budget as [|budget].
  - exists res'. simpl. auto.
  - destruct (IH res' d') as (r & Hr & Ho & Hn).
    + lia.
    + intros i Hi. rewrite <- (disconnect_result_S _ _ _ _ E). apply Hfail. lia.
    + exists r. split; [exact Hr|]. split; [exact Ho|].
      unfold disconnect_attempts in *. cbn [events filter is_disconnect List.length].
      rewrite Hn. reflexivity.
Qed.

End Disconnect.

Lemma disconnect_phase_run {D : Type} {edl : EDL D} (res : EdlErrorCode_t) (d : D) :
  let r := disconnect_loop ATTEMPTS res d in
  forall res', outcome r = Done res' ->
    outcome (disconnect_phase res d) =
      Done (if differs res' EdlSuccess then (-1)%Z else 0%Z) /\
    disconnect_attempts (events (disconnect_phase res d)) =
      disconnect_attempts (events r).
Proof.
  cbv zeta. intros res' Hr. unfold disconnect_phase, cout.
  rewrite bind_emit. unfold bind. cbv beta zeta.
  destruct (disconnect_loop ATTEMPTS res d) as [o f ev].
  cbn [outcome final events] in *. subst o.
  destruct (differs res' EdlSuccess);
    cbn [emit ret prepend outcome final events];
    (split; [reflexivity|]);
    change (EvCout "disconnecting... " :: ?l) with ([EvCout "disconnecting... "] ++ l);
    rewrite !disconnect_attempts_app; cbn; lia.
Qed.

(** C7.  In the disconnect phase, if [disconnectDevice] fails the first
    [j] times and then succeeds, with [j < 1000], exactly [j + 1] attempts
    are made and the phase ends with exit status 0; if none of 1000
    attempts succeeds, exactly 1000 attempts are made and the phase ends
    with exit status -1. *)
Theorem C7_disconnect_bound :
  forall (D : Type) (edl : EDL D) (d : D) (res : EdlErrorCode_t),
    (forall j : nat,
        (j < 1000)%nat ->
        (forall i, (i < j)%nat -> disconnect_result i d <> EdlSuccess) ->
        disconnect_result j d = EdlSuccess ->
        disconnect_attempts (events (disconnect_phase res d)) = S j /\
        outcome (disconnect_phase res d) = Done 0%Z) /\
    ((forall i, (i < 1000)%nat -> disconnect_result i d <> EdlSuccess) ->
     disconnect_attempts (events (disconnect_phase res d)) = 1000%nat /\
     outcome (disconnect_phase res d) = Done (-1)%Z).
Proof.
  intros D edl d res. split.
  - intros j Hj Hfail Hok.
    destruct (disconnect_loop_succeeds j ATTEMPTS res d Hj Hfail Hok) as [Ho Hn].
    destruct (disconnect_phase_run res d _ Ho) as [Ho' Hn'].
    rewrite Hn', Hn, Ho'. split; reflexivity.
  - intros Hfail.
    destruct (disconnect_loop_exhausts ATTEMPTS res d) as (r & Hr & Ho & Hn).
    + unfold ATTEMPTS. lia.
    + exact Hfail.
    + destruct (disconnect_phase_run res d _ Ho) as [Ho' Hn'].
      rewrite Hn', Hn, Ho'. apply differs_true in Hr. rewrite Hr.
      split; reflexivity.
Qed.

Lemma Mock_after_disconnects (k : nat) :
  forall m : Mock,
    after_disconnects k m =
    mkMock (on_detect m) (on_connect m) (on_purge m) (on_status m) (on_read m)
           (on_disconnect m) (status_queries m) (reads m) (k + disconnects m).
Proof.
  induction k as [|k IH]; intros m; simpl.
  - destruct m; reflexivity.
  - rewrite IH. simpl. f_equal. lia.
Defined.

Lemma Mock_disconnect_result (k : nat) (m : Mock) :
  disconnect_result k m = on_disconnect m (k + disconnects m)%nat.
Proof. unfold disconnect_result. rewrite Mock_after_disconnects. reflexivity. Defined.

Lemma C7_disconnect_bound_witness :
  (disconnect_attempts (events (disconnect_phase EdlSuccess (reluctant 3))) = 4%nat /\
   outcome (disconnect_phase EdlSuccess (reluctant 3)) = Done 0%Z) /\
  (disconnect_attempts (events (disconnect_phase EdlSuccess stuck)) = 1000%nat /\
   outcome (disconnect_phase EdlSuccess stuck) = Done (-1)%Z).
Proof.
  split.
  - apply (proj1 (C7_disconnect_bound Mock Mock_EDL (reluctant 3) EdlSuccess) 3%nat).
    + lia.
    + intros i Hi. rewrite Mock_disconnect_result. simpl.
      destruct (Nat.ltb_spec (i + 0) 3); [discriminate|lia].
    + reflexivity.
  - apply (proj2 (C7_disconnect_bound Mock Mock_EDL stuck EdlSuccess)).
    intros i Hi. rewrite Mock_disconnect_result. simpl. discriminate.
Defined.

(** ** Persisting a batch (lines 163-167) *)

Lemma N_range_length (count : nat) :
  forall start, List.length (N_range start count) = count.
Proof. induction count as [|c IH]; intros start; simpl; [|rewrite IH]; reflexivity. Qed.

Lemma N_range_app (a b : nat) :
  forall start,
    N_range start (a + b) = N_range start a ++ N_range (start + N.of_nat a) b.
Proof.
  induction a as [|a IH]; intros start.
  - simpl. rewrite N.add_0_r. reflexivity.
  - cbn [Nat.add N_range app]. rewrite IH. do 3 f_equal. lia.
Qed.

Lemma In_N_range (count : nat) :
  forall start q, In q (N_range start count) <-> start <= q < start + N.of_nat count.
Proof.
  induction count as [|c IH]; intros start q; cbn [N_range In].
  - lia.
  - rewrite IH. lia.
Qed.

Lemma wrap_uint_le (q : N) : wrap_uint q <= q.
Proof. apply N.Div0.mod_le. Qed.

Lemma wrap_uint_small (q : N) : q < UINT_MODULUS -> wrap_uint q = q.
Proof. apply N.mod_small. Qed.

Section Persist.

Context {D : Type}.
Variable EDL_CHANNEL_NUM : N.
Variable data : list float.

Lemma save_value_run (readPacketsIdx channelIdx : N) (d : D) :
  in_bounds data (readPacketsIdx * EDL_CHANNEL_NUM + channelIdx) ->
  save_value EDL_CHANNEL_NUM data readPacketsIdx channelIdx d =
  mkRun (Done tt) d [write_of data (readPacketsIdx * EDL_CHANNEL_NUM + channelIdx)].
Proof.
  intros Hq. unfold save_value, bind, vector_at. cbv zeta.
  rewrite (nth_error_nth' data float_zero Hq). reflexivity.
Qed.

Lemma save_channels_from (readPacketsIdx : N) (count : nat) :
  forall (channelIdx : N) (d : D),
    (forall q, In q (N_range (readPacketsIdx * EDL_CHANNEL_NUM + channelIdx) count) ->
               in_bounds data q) ->
    for_range channelIdx count (save_value EDL_CHANNEL_NUM data readPacketsIdx) d =
    mkRun (Done tt) d
          (map (write_of data)
               (N_range (readPacketsIdx * EDL_CHANNEL_NUM + channelIdx) count)).
Proof.
  induction count as [|c IH]; intros channelIdx d Hin; [reflexivity|].
  cbn [for_range N_range map].
  rewrite (bind_Done _ _ _ _ _ _ (save_value_run readPacketsIdx channelIdx d
             (Hin _ (or_introl eq_refl)))).
  rewrite IH.
  - cbn [outcome final events app]. rewrite N.add_succ_r. reflexivity.
  - intros q Hq'. apply Hin. right. rewrite <- N.add_succ_r. exact Hq'.
Qed.

Lemma save_channels_run (readPacketsIdx : N) (d : D) :
  (forall q, In q (N_range (readPacketsIdx * EDL_CHANNEL_NUM) (N.to_nat EDL_CHANNEL_NUM)) ->
             in_bounds data q) ->
  save_channels EDL_CHANNEL_NUM data readPacketsIdx d =
  mkRun (Done tt) d
        (map (write_of data)
             (N_range (readPacketsIdx * EDL_CHANNEL_NUM) (N.to_nat EDL_CHANNEL_NUM))).
Proof.
  intros Hin. unfold save_channels.
  rewrite save_channels_from; rewrite N.add_0_r; [reflexivity|exact Hin].
Qed.

Lemma save_packets_from (count : nat) :
  forall (readPacketsIdx : N) (d : D),
    (forall q, In q (N_range (readPacketsIdx * EDL_CHANNEL_NUM)
                             (count * N.to_nat EDL_CHANNEL_NUM)) -> in_bounds data q) ->
    for_range readPacketsIdx count (save_channels EDL_CHANNEL_NUM data) d =
    mkRun (Done tt) d
          (map (write_of data)
               (N_range (readPacketsIdx * EDL_CHANNEL_NUM)
                        (count * N.to_nat EDL_CHANNEL_NUM))).
Proof.
  induction count as [|c IH]; intros readPacketsIdx d Hin; [reflexivity|].
  cbn [for_range Nat.mul] in Hin |- *. rewrite N_range_app in Hin |- *.
  rewrite (bind_Done _ _ _ _ _ _ (save_channels_run readPacketsIdx d
             (fun q Hq => Hin q (in_or_app _ _ _ (or_introl Hq))))).
  rewrite N2Nat.id in Hin |- *.
  replace (readPacketsIdx * EDL_CHANNEL_NUM + EDL_CHANNEL_NUM)
    with (N.succ readPacketsIdx * EDL_CHANNEL_NUM) in Hin |- * by lia.
  rewrite IH.
  - cbn [outcome final events]. rewrite map_app. reflexivity.
  - intros q Hq. apply Hin. apply in_or_app. right. exact Hq.
Qed.

Lemma save_packets_run (readPacketsNum : N) (d : D) :
  holds_packets EDL_CHANNEL_NUM data readPacketsNum ->
  save_packets EDL_CHANNEL_NUM readPacketsNum data d =
  mkRun (Done tt) d
        (map (write_of data)
             (N_range 0 (N.to_nat readPacketsNum * N.to_nat EDL_CHANNEL_NUM))).
Proof.
  intros Hc. unfold save_packets. rewrite save_packets_from; [reflexivity|].
  intros q Hq. apply In_N_range in Hq. unfold in_bounds, holds_packets in *.
  pose proof (wrap_uint_le q). lia.
Qed.

Lemma written_writes (l : list N) :
  written (map (write_of data) l) =
  map (fun q => nth (N.to_nat (wrap_uint q)) data float_zero) l.
Proof. induction l as [|q l IH]; simpl; [|rewrite <- IH]; reflexivity. Qed.

Lemma accessed_writes (l : list N) :
  accessed (map (write_of data) l) = map wrap_uint l.
Proof. induction l as [|q l IH]; simpl; [|rewrite <- IH]; reflexivity. Qed.

Lemma map_wrap_small (count : nat) :
  forall start,
    start + N.of_nat count <= UINT_MODULUS ->
    map wrap_uint (N_range start count) = N_range start count.
Proof.
  induction count as [|c IH]; intros start H; [reflexivity|].
  cbn [N_range map]. rewrite wrap_uint_small by lia. rewrite IH by lia. reflexivity.
Qed.

End Persist.

Lemma skipn_nth (data : list float) :
  forall start : nat,
    (start < List.length data)%nat ->
    skipn start data = nth start data float_zero :: skipn (S start) data.
Proof.
  induction data as [|x l IH]; intros start H; simpl in H; [lia|].
  destruct start as [|start]; [reflexivity|].
  cbn [skipn nth]. apply IH. lia.
Qed.

Lemma nth_range_prefix (data : list float) :
  forall (count start : nat),
    (start + count <= List.length data)%nat ->
    map (fun q => nth (N.to_nat q) data float_zero) (N_range (N.of_nat start) count) =
    firstn count (skipn start data).
Proof.
  intros count. induction count as [|c IH]; intros start H; [reflexivity|].
  cbn [N_range map]. rewrite <- Nat2N.inj_succ, IH by lia. rewrite Nat2N.id.
  rewrite (skipn_nth data start) by lia. reflexivity.
Qed.

Lemma map_fixed {A : Type} (f : A -> A) (l : list A) :
  map f l = l -> forall x, In x l -> f x = x.
Proof.
  induction l as [|y l IH]; intros H x Hx; [destruct Hx|].
  cbn [map] in H. injection H as Hy Hl. destruct Hx as [->|Hx]; auto.
Qed.

Lemma Forall_accessed_writes (data : list float) (count : nat) :
  Forall (fun i => (N.to_nat i < count)%nat)
         (accessed (map (write_of data) (N_range 0 count))).
Proof.
  rewrite accessed_writes. apply Forall_forall. intros i Hi.
  apply in_map_iff in Hi. destruct Hi as (q & <- & Hq).
  apply In_N_range in Hq. pose proof (wrap_uint_le q). lia.
Qed.

Lemma written_of_accessed (data : list float) (l : list N) :
  written (map (write_of data) l) =
  map (fun i => nth (N.to_nat i) data float_zero) (accessed (map (write_of data) l)).
Proof. rewrite written_writes, accessed_writes, map_map. reflexivity. Qed.

(** Within the range of [unsigned int] the index expression does not wrap:
    the accesses are the first [count] indices in order and the values
    written are the first [count] elements. *)
Lemma writes_prefix (data : list float) (count : nat) :
  (count <= List.length data)%nat ->
  N.of_nat count <= UINT_MODULUS ->
  accessed (map (write_of data) (N_range 0 count)) = N_range 0 count /\
  written (map (write_of data) (N_range 0 count)) = firstn count data.
Proof.
  intros Hc Hr.
  assert (Ha : accessed (map (write_of data) (N_range 0 count)) = N_range 0 count).
  { rewrite accessed_writes. apply map_wrap_small. lia. }
  split; [exact Ha|].
  rewrite written_of_accessed, Ha.
  apply (nth_range_prefix data count 0). exact Hc.
Qed.

(** C10 (amended).  Under the precondition that the vector returned by
    [readData] holds at least [readPacketsNum * EDL_CHANNEL_NUM] values,
    persisting a batch never takes the out-of-range branch of the checked
    access, makes exactly [readPacketsNum * EDL_CHANNEL_NUM] accesses, all
    below that bound, so no trailing element is written, and writes
    exactly the accessed elements.  When the product does not exceed the
    range of [unsigned int], 2^32, the accessed indices are
    0, 1, ..., [readPacketsNum * EDL_CHANNEL_NUM - 1] in increasing order
    and the values written are the first
    [readPacketsNum * EDL_CHANNEL_NUM] elements of the vector. *)
Theorem C10_batch_prefix_in_order :
  forall (D : Type) (EDL_CHANNEL_NUM readPacketsNum : N) (data : list float) (d : D),
    holds_packets EDL_CHANNEL_NUM data readPacketsNum ->
    let r := save_packets EDL_CHANNEL_NUM readPacketsNum data d in
    let count := (N.to_nat readPacketsNum * N.to_nat EDL_CHANNEL_NUM)%nat in
    outcome r = Done tt /\
    List.length (accessed (events r)) = count /\
    Forall (fun i => (N.to_nat i < count)%nat) (accessed (events r)) /\
    written (events r) =
      map (fun i => nth (N.to_nat i) data float_zero) (accessed (events r)) /\
    (readPacketsNum * EDL_CHANNEL_NUM <= UINT_MODULUS ->
     accessed (events r) = N_range 0 count /\
     written (events r) = firstn count data /\
     sink (events r) = flat_map object_representation (firstn count data)).
Proof.
  intros D CH n data d Hc r count. subst r.
  rewrite (save_packets_run CH data n d Hc). cbn [outcome events]. fold count.
  split; [reflexivity|]. split.
  { rewrite accessed_writes, length_map. apply N_range_length. }
  split; [apply Forall_accessed_writes|].
  split; [apply written_of_accessed|].
  intros Hr.
  destruct (writes_prefix data count Hc) as [Ha Hw]; [subst count; lia|].
  unfold sink. rewrite Ha, Hw. auto.
Qed.

Lemma C10_batch_prefix_in_order_witness :
  holds_packets 8 two_packets 2 /\
  outcome (save_packets 8 2 two_packets idle) = Done tt /\
  accessed (events (save_packets 8 2 two_packets idle)) = N_range 0 16 /\
  written (events (save_packets 8 2 two_packets idle)) = firstn 16 two_packets.
Proof.
  assert (Hc : holds_packets 8 two_packets 2) by (unfold holds_packets; simpl; lia).
  split; [exact Hc|].
  destruct (C10_batch_prefix_in_order Mock 8 2 two_packets idle Hc)
    as (Ho & _ & _ & _ & Hr).
  split; [exact Ho|]. split; apply Hr; vm_compute; discriminate.
Defined.

(** C10 as stated fails: with 2^29 + 1 packets of eight channels in a
    vector that holds them all, the index of packet 2^29 wraps around to
    0, so the accessed indices are not the first 2^32 + 8 in increasing
    order. *)
Lemma C10_counterexample :
  holds_packets 8 overflowing_batch overflowing_packets /\
  accessed (events (save_packets 8 overflowing_packets overflowing_batch idle)) <>
  N_range 0 (N.to_nat overflowing_packets * N.to_nat 8).
Proof.
  assert (Hc : holds_packets 8 overflowing_batch overflowing_packets).
  { unfold holds_packets, overflowing_batch. rewrite repeat_length.
    unfold overflowing_packets. lia. }
  split; [exact Hc|].
  rewrite (save_packets_run 8 overflowing_batch overflowing_packets idle Hc).
  cbn [events]. rewrite accessed_writes. intros Heq.
  assert (Hin : In 4294967296 (N_range 0 (N.to_nat overflowing_packets * N.to_nat 8))).
  { apply In_N_range. unfold overflowing_packets. lia. }
  pose proof (map_fixed _ _ Heq _ Hin) as Hfix.
  vm_compute in Hfix. discriminate Hfix.
Qed.

(** ** The poll-read loop (lines 124-175) *)

Section Acquisition.

Context {D : Type} {edl : EDL D}.
Variable EDL_CHANNEL_NUM : N.

(** One pass through the loop body, case by case. *)
Lemma poll_read_iteration_run (d : D) :
  poll_read_iteration EDL_CHANNEL_NUM d =
  let '(res, status, d1) := getDeviceStatus d in
  if differs res EdlSuccess then
    mkRun (Done (Return res)) d1
          [EvGetDeviceStatus res status; EvCout ("failed to get device status" ++ endl)]
  else if (MINIMUM_DATA_PACKETS_TO_READ <=? availableDataPackets status)%N then
    let '(res', readPacketsNum, data, d2) := readData (availableDataPackets status) d1 in
    if equals res' EdlDeviceNotConnectedError then
      mkRun (Done (Return res')) d2
            (EvGetDeviceStatus res status :: advisories status ++
             [EvReadData (availableDataPackets status) res' readPacketsNum data;
              EvCout ("the device is not connected" ++ endl); EvFclose])
    else
      let s := save_packets EDL_CHANNEL_NUM readPacketsNum data d2 in
      mkRun (match outcome s with
             | Done _ => Done (Continue res')
             | Thrown e => Thrown e
             end)
            (final s)
            (EvGetDeviceStatus res status :: advisories status ++
             EvReadData (availableDataPackets status) res' readPacketsNum data ::
             shortfall res' readPacketsNum ++ events s)
  else
    mkRun (Done (Continue res)) d1
          (EvGetDeviceStatus res status :: advisories status ++ [EvSleep 1]).
Proof.
  unfold poll_read_iteration, cout, Sleep, fclose, advisories, shortfall.
  rewrite bind_call_getDeviceStatus.
  destruct (getDeviceStatus d) as [[res [avail overflow lost]] d1].
  cbv beta iota. cbn [availableDataPackets bufferOverflowFlag lostDataFlag].
  destruct (differs res EdlSuccess); [run; reflexivity|].
  destruct overflow, lost; unfold when; run;
    (destruct (MINIMUM_DATA_PACKETS_TO_READ <=? avail)%N; [|run; reflexivity]);
    rewrite bind_call_readData;
    destruct (readData avail d1) as [[[res' n] data] d2]; cbv beta iota;
    (destruct (equals res' EdlDeviceNotConnectedError); [run; reflexivity|]);
    destruct (equals res' EdlNotEnoughAvailableDataError); run;
    unfold bind; cbv zeta;
    destruct (save_packets EDL_CHANNEL_NUM n data d2) as [[[]|e] f ev];
    unfold prepend, ret; cbn [outcome final events app]; rewrite ?app_nil_r;
    reflexivity.
Qed.

Lemma written_advisories (status : EdlDeviceStatus_t) : written (advisories status) = [].
Proof. destruct status as [a [] []]; reflexivity. Qed.

Lemma written_shortfall (res : EdlErrorCode_t) (n : N) : written (shortfall res n) = [].
Proof. unfold shortfall. destruct (equals _ _); reflexivity. Qed.





Lemma written_iteration_reads (status : EdlDeviceStatus_t) (res' : EdlErrorCode_t)
  (readPacketsNum : N) (data : list float) (l : list N) :
  written (EvGetDeviceStatus EdlSuccess status :: advisories status ++
           EvReadData (availableDataPackets status) res' readPacketsNum data ::
           shortfall res' readPacketsNum ++ map (write_of data) l) =
  written (map (write_of data) l).
Proof.
  change (written (advisories status ++
                   [EvReadData (availableDataPackets status) res' readPacketsNum data] ++
                   shortfall res' readPacketsNum ++ map (write_of data) l) =
          written (map (write_of data) l)).
  rewrite !written_app, written_advisories, written_shortfall. reflexivity.
Qed.


End Acquisition.



(** ** Runs of the whole loop *)

Section Loop.

Context {D : Type} {edl : EDL D}.
Variable EDL_CHANNEL_NUM : N.

Lemma poll_read_loop_S (budget : nat) (res : EdlErrorCode_t) (d : D) :
  poll_read_loop EDL_CHANNEL_NUM (S budget) res d =
  let r := poll_read_iteration EDL_CHANNEL_NUM d in
  match outcome r with
  | Done (Continue res') =>
      let r' := poll_read_loop EDL_CHANNEL_NUM budget res' (final r) in
      mkRun (outcome r') (final r') (events r ++ events r')
  | Done (Return res') => mkRun (Done (Return res')) (final r) (events r)
  | Thrown e => mkRun (Thrown e) (final r) (events r)
  end.
Proof.
  cbn [poll_read_loop]. unfold bind. cbv zeta.
  destruct (poll_read_iteration EDL_CHANNEL_NUM d) as [[[res'|res']|e] f ev];
    unfold prepend, ret; cbn [outcome final events]; rewrite ?app_nil_r; reflexivity.
Qed.

Lemma readAndSaveSomeData_run (d : D) :
  readAndSaveSomeData EDL_CHANNEL_NUM d =
  let '(res, d1) := purgeData d in
  if differs res EdlSuccess then
    mkRun (Done res) d1
          [EvSleep 500; EvCout ("purge old data" ++ endl); EvPurgeData res;
           EvCout ("failed to purge data" ++ endl)]
  else
    let r := poll_read_loop EDL_CHANNEL_NUM ITERATIONS res d1 in
    mkRun (match outcome r with
           | Done (Continue res') => Done res'
           | Done (Return res') => Done res'
           | Thrown e => Thrown e
           end)
          (final r)
          ([EvSleep 500; EvCout ("purge old data" ++ endl); EvPurgeData res;
            EvCout "collecting data... "] ++ events r ++
           match outcome r with
           | Done (Continue _) => [EvCout ("done" ++ endl)]
           | _ => []
           end).
Proof.
  unfold readAndSaveSomeData, cout, Sleep. run.
  rewrite bind_call_purgeData. destruct (purgeData d) as [res d1].
  destruct (differs res EdlSuccess); run; [reflexivity|].
  unfold bind. cbv zeta.
  destruct (poll_read_loop EDL_CHANNEL_NUM ITERATIONS res d1) as [[[res'|res']|e] f ev];
    unfold prepend, ret, emit; cbn [outcome final events app]; rewrite ?app_nil_r;
    reflexivity.
Qed.

Lemma for_range_emits (p : Event -> bool) (body : N -> M D unit) :
  (forall i d, forallb p (events (body i d)) = true) ->
  forall count start d, forallb p (events (for_range start count body d)) = true.
Proof.
  intros Hbody count. induction count as [|c IH]; intros start d; [reflexivity|].
  cbn [for_range]. rewrite events_bind, forallb_app, Hbody.
  destruct (outcome (body start d)); [apply IH|reflexivity].
Qed.

Lemma save_value_emits (data : list float) (i j : N) (d : D) :
  forallb is_fwrite (events (save_value EDL_CHANNEL_NUM data i j d)) = true.
Proof.
  unfold save_value, vector_at, bind. cbv zeta.
  destruct (nth_error data _); reflexivity.
Qed.

(** Whether or not it runs to its end, persisting a batch does nothing
    but [fwrite]. *)
Lemma save_packets_emits (n : N) (data : list float) (d : D) :
  forallb is_fwrite (events (save_packets EDL_CHANNEL_NUM n data d)) = true.
Proof.
  unfold save_packets. apply for_range_emits. intros i d'.
  unfold save_channels. apply for_range_emits. intros j d''.
  apply save_value_emits.
Qed.

Lemma forallb_impl (p q : Event -> bool) (l : list Event) :
  (forall e, p e = true -> q e = true) ->
  forallb p l = true -> forallb q l = true.
Proof.
  intros Hpq H. rewrite forallb_forall in *. auto.
Qed.

Lemma calm_advisories (status : EdlDeviceStatus_t) : forallb calm (advisories status) = true.
Proof. destruct status as [a [] []]; reflexivity. Qed.

Lemma calm_shortfall (res : EdlErrorCode_t) (n : N) : forallb calm (shortfall res n) = true.
Proof. unfold shortfall. destruct (equals _ _); reflexivity. Qed.

Lemma calm_save_packets (n : N) (data : list float) (d : D) :
  forallb calm (events (save_packets EDL_CHANNEL_NUM n data d)) = true.
Proof.
  apply (forallb_impl is_fwrite); [|apply save_packets_emits].
  intros [] H; try discriminate H; reflexivity.
Qed.

Lemma ends_not_connected_app (t1 t2 : list Event) :
  forallb calm t1 = true -> ends_not_connected t2 -> ends_not_connected (t1 ++ t2).
Proof.
  intros H1 (pre & k & m & data & -> & Hpre).
  exists (t1 ++ pre), k, m, data. rewrite forallb_app, H1, Hpre, app_assoc. auto.
Qed.

Lemma poll_read_iteration_shape (d : D) :
  let r := poll_read_iteration EDL_CHANNEL_NUM d in
  forallb calm (events r) = true \/
  (ends_not_connected (events r) /\ outcome r = Done (Return EdlDeviceNotConnectedError)).
Proof.
  cbv zeta. rewrite poll_read_iteration_run.
  destruct (getDeviceStatus d) as [[res status] d1].
  destruct (differs res EdlSuccess); [left; reflexivity|].
  destruct (MINIMUM_DATA_PACKETS_TO_READ <=? availableDataPackets status)%N.
  - destruct (readData (availableDataPackets status) d1) as [[[res' n] data] d2].
    destruct (equals res' EdlDeviceNotConnectedError) eqn:Hnc.
    + right. apply equals_true in Hnc. subst res'. cbn [outcome events].
      split; [|reflexivity].
      exists (EvGetDeviceStatus res status :: advisories status), (availableDataPackets status), n, data.
      split; [reflexivity|]. cbn [forallb]. rewrite calm_advisories. reflexivity.
    + left. cbv zeta. cbn [events forallb].
      rewrite forallb_app, calm_advisories. cbn [forallb].
      rewrite forallb_app, calm_shortfall, calm_save_packets.
      apply equals_false in Hnc. destruct res'; try reflexivity. congruence.
  - left. cbn [events forallb]. rewrite forallb_app, calm_advisories. reflexivity.
Qed.

Lemma poll_read_loop_shape (budget : nat) :
  forall (res : EdlErrorCode_t) (d : D),
    let r := poll_read_loop EDL_CHANNEL_NUM budget res d in
    forallb calm (events r) = true \/
    (ends_not_connected (events r) /\ outcome r = Done (Return EdlDeviceNotConnectedError)).
Proof.
  induction budget as [|b IH]; intros res d; cbv zeta; [left; reflexivity|].
  rewrite poll_read_loop_S. cbv zeta.
  destruct (poll_read_iteration_shape d) as [Hcalm|[Hend Hout]].
  - destruct (outcome (poll_read_iteration EDL_CHANNEL_NUM d)) as [[res'|res']|e];
      try (left; exact Hcalm).
    cbn [outcome events].
    destruct (IH res' (final (poll_read_iteration EDL_CHANNEL_NUM d))) as [H|[H Ho]].
    + left. rewrite forallb_app, Hcalm, H. reflexivity.
    + right. split; [apply ends_not_connected_app; assumption|exact Ho].
  - rewrite Hout. right. split; [exact Hend|reflexivity].
Qed.

Lemma readAndSaveSomeData_shape (d : D) :
  let r := readAndSaveSomeData EDL_CHANNEL_NUM d in
  forallb calm (events r) = true \/
  (ends_not_connected (events r) /\ outcome r = Done EdlDeviceNotConnectedError).
Proof.
  cbv zeta. rewrite readAndSaveSomeData_run.
  destruct (purgeData d) as [res d1].
  destruct (differs res EdlSuccess); [left; reflexivity|]. cbv zeta.
  destruct (poll_read_loop_shape ITERATIONS res d1) as [Hcalm|[Hend Hout]].
  - left. cbn [events]. rewrite !forallb_app, Hcalm.
    destruct (outcome (poll_read_loop EDL_CHANNEL_NUM ITERATIONS res d1)) as [[?|?]|?];
      reflexivity.
  - right. rewrite Hout. cbn [outcome events]. rewrite app_nil_r.
    split; [|reflexivity]. apply ends_not_connected_app; [reflexivity|exact Hend].
Qed.

End Loop.

Lemma calm_connected (tr : list Event) :
  forallb calm tr = true -> forallb connected tr = true.
Proof.
  apply forallb_impl. intros e. unfold calm, connected.
  destruct (is_not_connected_read e); [discriminate|reflexivity].
Qed.

Lemma connected_no_split (pre post : list Event) (x : Event) :
  forallb connected (pre ++ x :: post) = true ->
  is_not_connected_read x = true -> False.
Proof.
  rewrite forallb_app. cbn [forallb]. unfold connected at 2. intros H Hx.
  rewrite Hx in H. cbn in H. rewrite andb_false_r in H. discriminate.
Qed.

(** A trace has one decomposition at its first read that reports a lost
    connection. *)
Lemma first_not_connected_unique (pre' tail : list Event) (R : Event) :
  forallb connected pre' = true ->
  forallb connected tail = true ->
  forall (pre post : list Event) (x : Event),
    is_not_connected_read x = true ->
    pre' ++ R :: tail = pre ++ x :: post ->
    pre = pre' /\ x = R /\ post = tail.
Proof.
  intros Hpre' Htail. induction pre' as [|a p IH]; intros pre post x Hx Heq.
  - destruct pre as [|y pre]; cbn [app] in Heq.
    + injection Heq as <- <-. auto.
    + injection Heq as _ Heq. exfalso. rewrite Heq in Htail.
      exact (connected_no_split _ _ _ Htail Hx).
  - cbn [forallb] in Hpre'. apply andb_true_iff in Hpre'. destruct Hpre' as [Ha Hp].
    destruct pre as [|y pre]; cbn [app] in Heq.
    + injection Heq as <- _. unfold connected in Ha. rewrite Hx in Ha. discriminate Ha.
    + injection Heq as <- Heq. destruct (IH Hp pre post x Hx Heq) as (-> & -> & ->).
      auto.
Qed.

Lemma calm_fclose_count (tr : list Event) :
  forallb calm tr = true -> fclose_count tr = 0%nat.
Proof.
  unfold fclose_count. induction tr as [|e tr IH]; [reflexivity|].
  cbn [forallb filter]. intros H. apply andb_true_iff in H. destruct H as [He Ht].
  unfold calm in He. destruct (is_fclose e); [|auto].
  rewrite orb_true_r in He. discriminate He.
Qed.

Lemma ends_not_connected_fclose_count (tr : list Event) :
  ends_not_connected tr -> fclose_count tr = 1%nat.
Proof.
  intros (pre & k & m & data & -> & Hcalm).
  rewrite fclose_count_app, (calm_fclose_count _ Hcalm). reflexivity.
Qed.

(** ** Runs of main *)

Section Main.

Context {D : Type} {edl : EDL D}.
Variable EDL_CHANNEL_NUM : N.

(** What [main] does, case by case: it stops early, or it reaches the
    acquisition with some events [pre] behind it, none of which is a read
    or an [fclose], and then ends according to the result of
    [readAndSaveSomeData]. *)
Lemma main_shape (d : D) :
  let r := main EDL_CHANNEL_NUM d in
  (forallb calm (events r) = true /\ written (events r) = [] /\
   (outcome r = Done (-1)%Z \/ outcome r = Thrown (out_of_range 0))) \/
  (exists (pre : list Event) (d' : D),
      forallb calm pre = true /\ written pre = [] /\
      let a := readAndSaveSomeData EDL_CHANNEL_NUM d' in
      match outcome a with
      | Thrown e => r = mkRun (Thrown e) (final a) (pre ++ events a)
      | Done res =>
          if differs res EdlSuccess then
            r = mkRun (Done (-1)%Z) (final a)
                      (pre ++ events a ++ [EvCout ("failed to read data" ++ endl)])
          else
            let t := disconnect_phase res (final a) in
            r = mkRun (outcome t) (final t) (pre ++ events a ++ EvFclose :: events t)
      end).
Proof.
  unfold main, cout, fopen, fclose. rewrite bind_call_detectDevices.
  destruct (detectDevices d) as [[res0 devices] d0]. cbv beta iota.
  destruct (differs res0 EdlSuccess); [left; run; cbn; auto|].
  run. destruct devices as [|first devices]; unfold vector_at;
    cbn [nth_error N.to_nat]; [left; rewrite bind_throw; cbn; auto|].
  run. rewrite bind_call_connectDevice.
  destruct (connectDevice first d0) as [res1 d1].
  run. destruct (differs res1 EdlSuccess); [left; run; cbn; auto|].
  unfold configureWorkingModality, compensateDigitalOffset, setTriangularProtocol, Sleep.
  cbv zeta. run. rewrite !prepend_prepend. cbn [app].
  match goal with
  | |- context [bind (readAndSaveSomeData EDL_CHANNEL_NUM) _ ?x] => set (d' := x)
  end.
  match goal with
  | |- context [prepend ?l _] => set (pre := l)
  end.
  right. exists pre, d'. split; [reflexivity|]. split; [reflexivity|]. cbv zeta.
  rewrite (bind_run (readAndSaveSomeData EDL_CHANNEL_NUM)).
  destruct (readAndSaveSomeData EDL_CHANNEL_NUM d') as [[res|e] f ev];
    cbn [outcome final events]; [|reflexivity].
  destruct (differs res EdlSuccess); run.
  - unfold prepend, ret. cbn [outcome final events]. rewrite app_nil_r.
    reflexivity.
  - rewrite !prepend_prepend. unfold prepend. rewrite <- !app_assoc. reflexivity.
Qed.

End Main.

Lemma disconnect_loop_connected {D : Type} {edl : EDL D} (budget : nat) :
  forall (res : EdlErrorCode_t) (d : D),
    forallb connected (events (disconnect_loop budget res d)) = true.
Proof.
  induction budget as [|b IH]; intros res d; [reflexivity|].
  destruct (disconnectDevice d) as [res' d'] eqn:E.
  rewrite (disconnect_loop_step _ _ _ _ _ E).
  destruct (equals res' EdlSuccess); [reflexivity|].
  cbn [events forallb]. apply IH.
Qed.

Lemma disconnect_phase_connected {D : Type} {edl : EDL D} (res : EdlErrorCode_t) (d : D) :
  forallb connected (events (disconnect_phase res d)) = true.
Proof.
  unfold disconnect_phase, cout. rewrite bind_emit, events_prepend.
  cbn [app forallb]. rewrite events_bind, forallb_app, disconnect_loop_connected.
  destruct (outcome (disconnect_loop ATTEMPTS res d)) as [res'|e]; [|reflexivity].
  destruct (differs res' EdlSuccess); reflexivity.
Qed.

(** C6.  Whenever a read reports that the device is not connected, the
    acquisition function prints its message, closes the data file and
    returns that error at once: after the read nothing is written, no
    further status query or read is made, the file has been closed
    exactly once, and [main], to which the error is returned, ends the
    run with exit status -1 without closing the file again. *)
Theorem C6_not_connected_short_circuit :
  forall (D : Type) (edl : EDL D) (EDL_CHANNEL_NUM : N) (d : D)
         (pre post : list Event) (k m : N) (data : list float),
    let lost := EvReadData k EdlDeviceNotConnectedError m data in
    (events (readAndSaveSomeData EDL_CHANNEL_NUM d) = pre ++ lost :: post ->
     post = [EvCout ("the device is not connected" ++ endl); EvFclose] /\
     outcome (readAndSaveSomeData EDL_CHANNEL_NUM d) = Done EdlDeviceNotConnectedError /\
     fclose_count (events (readAndSaveSomeData EDL_CHANNEL_NUM d)) = 1%nat) /\
    (events (main EDL_CHANNEL_NUM d) = pre ++ lost :: post ->
     post = [EvCout ("the device is not connected" ++ endl); EvFclose;
             EvCout ("failed to read data" ++ endl)] /\
     outcome (main EDL_CHANNEL_NUM d) = Done (-1)%Z /\
     fclose_count (events (main EDL_CHANNEL_NUM d)) = 1%nat).
Proof.
  intros D edl CH d pre post k m data lost.
  assert (Hlost : is_not_connected_read lost = true) by reflexivity.
  split.
  - intros Heq. destruct (readAndSaveSomeData_shape CH d) as [Hcalm|[Hend Hout]].
    + exfalso. rewrite Heq in Hcalm.
      exact (connected_no_split _ _ _ (calm_connected _ Hcalm) Hlost).
    + split; [|split; [exact Hout|exact (ends_not_connected_fclose_count _ Hend)]].
      destruct Hend as (pre' & k' & m' & data' & Hev & Hpre').
      rewrite Hev in Heq.
      destruct (first_not_connected_unique pre'
                  [EvCout ("the device is not connected" ++ endl); EvFclose] _
                  (calm_connected _ Hpre') eq_refl pre post lost Hlost Heq)
        as (_ & _ & ->).
      reflexivity.
  - intros Heq. destruct (main_shape CH d) as [(Hcalm & _)|(pre0 & d' & Hpre0 & _ & H)].
    + exfalso. rewrite Heq in Hcalm.
      exact (connected_no_split _ _ _ (calm_connected _ Hcalm) Hlost).
    + cbv zeta in H.
      destruct (readAndSaveSomeData_shape CH d') as [Hcalm|[Hend Hout]].
      * exfalso.
        assert (Hall : forallb connected (events (main CH d)) = true).
        { destruct (outcome (readAndSaveSomeData CH d')) as [res|e].
          - destruct (differs res EdlSuccess); rewrite H; cbn [events];
              rewrite !forallb_app, (calm_connected _ Hpre0), (calm_connected _ Hcalm).
            + reflexivity.
            + cbn [forallb]. apply disconnect_phase_connected.
          - rewrite H. cbn [events].
            rewrite forallb_app, (calm_connected _ Hpre0), (calm_connected _ Hcalm).
            reflexivity. }
        rewrite Heq in Hall. exact (connected_no_split _ _ _ Hall Hlost).
      * rewrite Hout in H.
        change (differs EdlDeviceNotConnectedError EdlSuccess) with true in H.
        cbv iota in H. rewrite H. cbn [outcome events].
        pose proof (ends_not_connected_fclose_count _ Hend) as Hcount.
        destruct Hend as (pre' & k' & m' & data' & Hev & Hpre').
        split; [|split; [reflexivity|]].
        -- rewrite H, Hev in Heq. cbn [events] in Heq.
           rewrite <- app_assoc, app_assoc in Heq. cbn [app] in Heq.
           assert (Hp : forallb connected (pre0 ++ pre') = true).
           { rewrite forallb_app, (calm_connected _ Hpre0), (calm_connected _ Hpre').
             reflexivity. }
           destruct (first_not_connected_unique (pre0 ++ pre')
                       [EvCout ("the device is not connected" ++ endl); EvFclose;
                        EvCout ("failed to read data" ++ endl)] _
                       Hp eq_refl pre post lost Hlost Heq)
             as (_ & _ & ->).
           reflexivity.
        -- rewrite !fclose_count_app, Hcount, (calm_fclose_count _ Hpre0). reflexivity.
Qed.

Lemma C6_not_connected_short_circuit_witness :
  (outcome (readAndSaveSomeData 8 unplugged) = Done EdlDeviceNotConnectedError /\
   fclose_count (events (readAndSaveSomeData 8 unplugged)) = 1%nat /\
   written (events (readAndSaveSomeData 8 unplugged)) = []) /\
  (outcome (main 8 unplugged) = Done (-1)%Z /\
   fclose_count (events (main 8 unplugged)) = 1%nat).
Proof.
  split.
  - destruct (C6_not_connected_short_circuit Mock Mock_EDL 8 unplugged
                (firstn 7 (events (readAndSaveSomeData 8 unplugged)))
                (skipn 8 (events (readAndSaveSomeData 8 unplugged)))
                12 0 []) as [H _].
    destruct (H eq_refl) as (_ & Ho & Hc).
    split; [exact Ho|]. split; [exact Hc|reflexivity].
  - destruct (C6_not_connected_short_circuit Mock Mock_EDL 8 unplugged
                (firstn 32 (events (main 8 unplugged)))
                (skipn 33 (events (main 8 unplugged)))
                12 0 []) as [_ H].
    destruct (H eq_refl) as (_ & Ho & Hc).
    split; [exact Ho|exact Hc].
Defined.

(** ** The advisory flags *)

Lemma agree_refl {S A : Type} (r : Run S A) : agree r r.
Proof. repeat split. Qed.

Lemma read_requests_data_path (tr : list Event) :
  read_requests (filter data_path tr) = read_requests tr.
Proof.
  induction tr as [|e tr IH]; [reflexivity|].
  destruct e; cbn [filter data_path]; cbn [read_requests flat_map];
    fold (read_requests tr); fold (read_requests (filter data_path tr));
    rewrite ?IH; reflexivity.
Qed.

Lemma written_data_path (tr : list Event) :
  written (filter data_path tr) = written tr.
Proof.
  induction tr as [|e tr IH]; [reflexivity|].
  destruct e; cbn [filter data_path]; cbn [written flat_map];
    fold (written tr); fold (written (filter data_path tr));
    rewrite ?IH; reflexivity.
Qed.

Lemma accessed_data_path (tr : list Event) :
  accessed (filter data_path tr) = accessed tr.
Proof.
  induction tr as [|e tr IH]; [reflexivity|].
  destruct e; cbn [filter data_path]; cbn [accessed flat_map];
    fold (accessed tr); fold (accessed (filter data_path tr));
    rewrite ?IH; reflexivity.
Qed.

Lemma fclose_count_data_path (tr : list Event) :
  fclose_count (filter data_path tr) = fclose_count tr.
Proof.
  unfold fclose_count. induction tr as [|e tr IH]; [reflexivity|].
  destruct e; cbn [filter data_path is_fclose List.length]; rewrite ?IH; reflexivity.
Qed.

Lemma data_path_advisories (status : EdlDeviceStatus_t) :
  filter data_path (advisories status) = [].
Proof. destruct status as [a [] []]; reflexivity. Qed.

Section Flags.

Context {D : Type} (edl : EDL D).
Variable EDL_CHANNEL_NUM : N.
Variables flags1 flags2 : nat -> bool * bool.

Lemma poll_read_iteration_agree (s : D * nat) :
  agree (@poll_read_iteration _ (flagged edl flags1) EDL_CHANNEL_NUM s)
        (@poll_read_iteration _ (flagged edl flags2) EDL_CHANNEL_NUM s).
Proof.
  rewrite !poll_read_iteration_run. cbn [getDeviceStatus readData flagged].
  destruct s as [d n]. cbn [fst snd].
  destruct (getDeviceStatus d) as [[res status] d1].
  destruct (differs res EdlSuccess); [repeat split|].
  cbn [availableDataPackets].
  destruct (MINIMUM_DATA_PACKETS_TO_READ <=? availableDataPackets status)%N.
  - cbn [fst snd]. destruct (readData (availableDataPackets status) d1) as [[[res' m] data] d2].
    destruct (equals res' EdlDeviceNotConnectedError).
    + repeat split. cbn [events filter data_path].
      rewrite !filter_app, !data_path_advisories. reflexivity.
    + cbv zeta. repeat split. cbn [events filter data_path].
      rewrite !filter_app, !data_path_advisories. reflexivity.
  - repeat split. cbn [events filter data_path].
    rewrite !filter_app, !data_path_advisories. reflexivity.
Qed.

Lemma poll_read_loop_agree (budget : nat) :
  forall (res : EdlErrorCode_t) (s : D * nat),
    agree (@poll_read_loop _ (flagged edl flags1) EDL_CHANNEL_NUM budget res s)
          (@poll_read_loop _ (flagged edl flags2) EDL_CHANNEL_NUM budget res s).
Proof.
  induction budget as [|b IH]; intros res s; [apply agree_refl|].
  rewrite !poll_read_loop_S. cbv zeta.
  destruct (poll_read_iteration_agree s) as (Ho & Hf & He).
  rewrite <- Ho, <- Hf.
  destruct (outcome (@poll_read_iteration _ (flagged edl flags1) EDL_CHANNEL_NUM s))
    as [[res'|res']|e]; try (repeat split; assumption).
  destruct (IH res' (final (@poll_read_iteration _ (flagged edl flags1) EDL_CHANNEL_NUM s)))
    as (Ho' & Hf' & He').
  repeat split; cbn [outcome final events]; try assumption.
  rewrite !filter_app, He, He'. reflexivity.
Qed.

Lemma readAndSaveSomeData_agree (s : D * nat) :
  agree (@readAndSaveSomeData _ (flagged edl flags1) EDL_CHANNEL_NUM s)
        (@readAndSaveSomeData _ (flagged edl flags2) EDL_CHANNEL_NUM s).
Proof.
  rewrite !readAndSaveSomeData_run. cbn [purgeData flagged].
  destruct (purgeData (fst s)) as [res d1].
  destruct (differs res EdlSuccess); [apply agree_refl|]. cbv zeta.
  destruct (poll_read_loop_agree ITERATIONS res (d1, snd s)) as (Ho & Hf & He).
  rewrite <- Ho, <- Hf.
  repeat split. cbn [events]. rewrite !filter_app, He. reflexivity.
Qed.

End Flags.

(** C9.  The advisory flags never influence the data path.  Take any
    session and any two sequences of flag values for its status
    snapshots; packet counts and read results are those of the session in
    both executions.  The two executions of the acquisition function end
    with the same result (neither stops where the other goes on), issue
    the same read requests, write the same values and bytes to the data
    file and close it equally often. *)
Theorem C9_advisory_flags_do_not_alter_output :
  forall (D : Type) (edl : EDL D) (EDL_CHANNEL_NUM : N)
         (flags1 flags2 : nat -> bool * bool) (s : D * nat),
    let r1 := @readAndSaveSomeData _ (flagged edl flags1) EDL_CHANNEL_NUM s in
    let r2 := @readAndSaveSomeData _ (flagged edl flags2) EDL_CHANNEL_NUM s in
    outcome r1 = outcome r2 /\
    final r1 = final r2 /\
    read_requests (events r1) = read_requests (events r2) /\
    accessed (events r1) = accessed (events r2) /\
    written (events r1) = written (events r2) /\
    sink (events r1) = sink (events r2) /\
    fclose_count (events r1) = fclose_count (events r2).
Proof.
  intros D edl CH flags1 flags2 s r1 r2.
  destruct (readAndSaveSomeData_agree edl CH flags1 flags2 s) as (Ho & Hf & He).
  fold r1 r2 in Ho, Hf, He.
  assert (Hw : written (events r1) = written (events r2)).
  { rewrite <- (written_data_path (events r1)), He. apply written_data_path. }
  split; [exact Ho|]. split; [exact Hf|]. split.
  { rewrite <- (read_requests_data_path (events r1)), He. apply read_requests_data_path. }
  split.
  { rewrite <- (accessed_data_path (events r1)), He. apply accessed_data_path. }
  split; [exact Hw|]. split.
  { unfold sink. rewrite Hw. reflexivity. }
  rewrite <- (fclose_count_data_path (events r1)), He. apply fclose_count_data_path.
Qed.

(** ** What the acquisition function returns *)

Lemma call_results_app (t1 t2 : list Event) :
  call_results (t1 ++ t2) = call_results t1 ++ call_results t2.
Proof. apply flat_map_app. Qed.

Lemma call_results_fwrite (tr : list Event) :
  forallb is_fwrite tr = true -> call_results tr = [].
Proof.
  induction tr as [|e tr IH]; [reflexivity|]. cbn [forallb].
  intros H. apply andb_true_iff in H. destruct H as [He Ht].
  destruct e; try discriminate He. exact (IH Ht).
Qed.

Lemma call_results_advisories (status : EdlDeviceStatus_t) :
  call_results (advisories status) = [].
Proof. destruct status as [a [] []]; reflexivity. Qed.

Lemma call_results_shortfall (res : EdlErrorCode_t) (n : N) :
  call_results (shortfall res n) = [].
Proof. unfold shortfall. destruct (equals _ _); reflexivity. Qed.

Lemma last_app_default {A : Type} (l1 l2 : list A) (d : A) :
  last (l1 ++ l2) d = last l2 (last l1 d).
Proof.
  revert d. induction l1 as [|a l1 IH]; intros d; [reflexivity|].
  destruct l1 as [|b l1].
  - destruct l2 as [|c l2]; [reflexivity|].
    cbn [app]. change (last (a :: c :: l2) d) with (last (c :: l2) d).
    clear IH. revert c. induction l2 as [|c' l2 IH2]; intros c; [reflexivity|].
    change (last (c :: c' :: l2) d) with (last (c' :: l2) d).
    change (last (c :: c' :: l2) (last [a] d)) with (last (c' :: l2) (last [a] d)).
    apply IH2.
  - change (last ((a :: b :: l1) ++ l2) d) with (last ((b :: l1) ++ l2) d).
    change (last (a :: b :: l1) d) with (last (b :: l1) d).
    apply IH.
Qed.

Section Returned.

Context {D : Type} {edl : EDL D}.
Variable EDL_CHANNEL_NUM : N.

Lemma poll_read_iteration_result (d : D) (before res : EdlErrorCode_t) :
  carried (outcome (poll_read_iteration EDL_CHANNEL_NUM d)) = Some res ->
  last (call_results (events (poll_read_iteration EDL_CHANNEL_NUM d))) before = res.
Proof.
  rewrite poll_read_iteration_run.
  destruct (getDeviceStatus d) as [[res0 status] d1].
  destruct (differs res0 EdlSuccess); [intros [= <-]; reflexivity|].
  destruct (MINIMUM_DATA_PACKETS_TO_READ <=? availableDataPackets status)%N.
  - destruct (readData (availableDataPackets status) d1) as [[[res' n] data] d2].
    destruct (equals res' EdlDeviceNotConnectedError).
    + intros [= <-]. cbn [events].
      change (EvGetDeviceStatus res0 status :: ?l)
        with ([EvGetDeviceStatus res0 status] ++ l).
      rewrite !call_results_app, call_results_advisories. reflexivity.
    + cbv zeta. cbn [outcome events]. intros H.
      change (EvGetDeviceStatus res0 status :: ?l)
        with ([EvGetDeviceStatus res0 status] ++ l).
      change (EvReadData ?k res' n data :: ?l) with ([EvReadData k res' n data] ++ l).
      rewrite !call_results_app, call_results_advisories, call_results_shortfall,
        (call_results_fwrite _ (save_packets_emits EDL_CHANNEL_NUM n data d2)).
      destruct (outcome (save_packets EDL_CHANNEL_NUM n data d2)); [|discriminate H].
      injection H as <-. reflexivity.
  - intros [= <-]. cbn [events].
    change (EvGetDeviceStatus res0 status :: ?l)
      with ([EvGetDeviceStatus res0 status] ++ l).
    rewrite !call_results_app, call_results_advisories. reflexivity.
Qed.

Lemma poll_read_loop_result (budget : nat) :
  forall (d : D) (before res : EdlErrorCode_t),
    carried (outcome (poll_read_loop EDL_CHANNEL_NUM budget before d)) = Some res ->
    last (call_results (events (poll_read_loop EDL_CHANNEL_NUM budget before d))) before
    = res.
Proof.
  induction budget as [|b IH]; intros d before res; [intros [= <-]; reflexivity|].
  rewrite poll_read_loop_S. cbv zeta.
  pose proof (poll_read_iteration_result d before) as Hit.
  destruct (outcome (poll_read_iteration EDL_CHANNEL_NUM d)) as [[res'|res']|e].
  - cbn [outcome events]. intros H.
    rewrite call_results_app, last_app_default, (Hit res' eq_refl).
    apply IH. exact H.
  - cbn [outcome events]. intros [= <-]. apply Hit. reflexivity.
  - discriminate.
Qed.

(** Whenever [readAndSaveSomeData] returns, it returns the result of the
    last call it made to [purgeData], [getDeviceStatus] or [readData]. *)
Lemma readAndSaveSomeData_result (d : D) (res : EdlErrorCode_t) :
  outcome (readAndSaveSomeData EDL_CHANNEL_NUM d) = Done res ->
  last (call_results (events (readAndSaveSomeData EDL_CHANNEL_NUM d))) EdlSuccess = res.
Proof.
  rewrite readAndSaveSomeData_run.
  destruct (purgeData d) as [res0 d1].
  destruct (differs res0 EdlSuccess); [intros [= <-]; reflexivity|]. cbv zeta.
  cbn [outcome events]. intros H.
  pose proof (poll_read_loop_result ITERATIONS d1 res0 res) as Hloop.
  rewrite !call_results_app, !last_app_default.
  destruct (outcome (poll_read_loop EDL_CHANNEL_NUM ITERATIONS res0 d1)) as [[r|r]|e];
    try discriminate H; injection H as <-; cbn [call_results flat_map app last];
    apply Hloop; reflexivity.
Qed.

End Returned.

(** ** Runs in which the program and its description part ways *)

(** C1.  The loop of [readAndSaveSomeData] runs its 1000 iterations, every
    status query of the run returns [EdlSuccess], and yet the function
    returns [EdlNotEnoughAvailableDataError]: the value returned is the
    result of the read of the last iteration, not of the last status
    query. *)
Theorem C1_last_read_result_returned :
  let r := readAndSaveSomeData 8 final_short in
  List.length (status_results (events r)) = 1000%nat /\
  forallb (fun res => equals res EdlSuccess) (status_results (events r)) = true /\
  last (status_results (events r)) (EdlOtherError 0) = EdlSuccess /\
  outcome r = Done EdlNotEnoughAvailableDataError.
Proof. vm_compute. repeat split. Qed.

(** C2.  In a run without any fatal condition (devices detected,
    connection made, purge and all 1000 status queries successful, no
    read reporting a lost connection), in which the one read delivers
    fewer packets than requested and its packet is written to the file,
    [main] ends with exit status -1, without closing the file and
    without attempting to disconnect. *)
Theorem C2_insufficient_data_exit_status :
  let r := main 8 final_short in
  existsb fatal (events r) = false /\
  sink (events r) = flat_map object_representation (repeat (sample x01) 8) /\
  exit_status r = Some (-1)%Z /\
  fclose_count (events r) = 0%nat /\
  disconnect_attempts (events r) = 0%nat.
Proof. vm_compute. repeat split. Qed.

(** C3.  When the purge fails, and when a status query fails, the data
    file that [main] opened is never closed: neither
    [readAndSaveSomeData] nor [main] calls [fclose] on these paths. *)
Theorem C3_file_left_open :
  (let r := main 8 (with_purge (EdlOtherError 1) idle) in
   List.length (filter is_fopen (events r)) = 1%nat /\
   fclose_count (events r) = 0%nat /\
   exit_status r = Some (-1)%Z) /\
  (let r := main 8 status_fails in
   List.length (filter is_fopen (events r)) = 1%nat /\
   fclose_count (events r) = 0%nat /\
   exit_status r = Some (-1)%Z).
Proof. vm_compute. repeat split. Qed.

(** C5.  When the read of the last iteration reports insufficient data,
    its one packet is written, but the loop does not go on to another
    poll: the function prints its last line and returns
    [EdlNotEnoughAvailableDataError], which [main] reports as a failure
    to read data. *)
Theorem C5_insufficient_data_in_last_iteration :
  let batch := repeat (sample x01) 8 in
  skipn 2003 (events (readAndSaveSomeData 8 final_short)) =
    EvReadData 10 EdlNotEnoughAvailableDataError 1 batch ::
    EvCout ("not enough available data, only 1 packets have been read" ++ endl) ::
    map (write_of batch) (N_range 0 8) ++ [EvCout ("done" ++ endl)] /\
  outcome (readAndSaveSomeData 8 final_short) = Done EdlNotEnoughAvailableDataError /\
  last (events (main 8 final_short)) EvFclose = EvCout ("failed to read data" ++ endl) /\
  exit_status (main 8 final_short) = Some (-1)%Z.
Proof. vm_compute. repeat split. Qed.

(** * Further properties of the program *)

(** ** main, case by case *)

Section MainRun.

Context {D : Type} {edl : EDL D}.
Variable EDL_CHANNEL_NUM : N.

Lemma main_run (d : D) :
  main EDL_CHANNEL_NUM d =
  let '(res0, devices, d0) := detectDevices d in
  if differs res0 EdlSuccess then
    mkRun (Done (-1)%Z) d0
          [EvDetectDevices res0 devices; EvCout ("could not detect devices" ++ endl)]
  else
    match devices with
    | [] =>
        mkRun (Thrown (out_of_range 0)) d0
              [EvDetectDevices res0 []; EvCout "first device found "]
    | first :: _ =>
        let '(res1, d1) := connectDevice first d0 in
        if differs res1 EdlSuccess then
          mkRun (Done (-1)%Z) d1
                (connection_events res0 devices first res1 ++
                 [EvCout ("connection error" ++ endl)])
        else
          let a := readAndSaveSomeData EDL_CHANNEL_NUM (configured d1) in
          match outcome a with
          | Thrown e =>
              mkRun (Thrown e) (final a)
                    (connection_events res0 devices first res1 ++ setup_events ++ events a)
          | Done res =>
              if differs res EdlSuccess then
                mkRun (Done (-1)%Z) (final a)
                      (connection_events res0 devices first res1 ++ setup_events ++
                       events a ++ [EvCout ("failed to read data" ++ endl)])
              else
                prepend (connection_events res0 devices first res1 ++ setup_events ++
                         events a ++ [EvFclose])
                        (disconnect_phase res (final a))
          end
    end.
Proof.
  unfold main, cout, fopen, fclose. rewrite bind_call_detectDevices.
  destruct (detectDevices d) as [[res0 devices] d0]. cbv beta iota.
  destruct (differs res0 EdlSuccess); [run; reflexivity|].
  run. destruct devices as [|first devices]; unfold vector_at;
    cbn [nth_error N.to_nat]; [rewrite bind_throw; reflexivity|].
  run. rewrite bind_call_connectDevice.
  destruct (connectDevice first d0) as [res1 d1].
  run. destruct (differs res1 EdlSuccess); [run; reflexivity|].
  unfold configureWorkingModality, compensateDigitalOffset, setTriangularProtocol, Sleep.
  cbv zeta. run. rewrite !prepend_prepend. cbn [app].
  rewrite (bind_run (readAndSaveSomeData EDL_CHANNEL_NUM)).
  change (readAndSaveSomeData EDL_CHANNEL_NUM _)
    with (readAndSaveSomeData EDL_CHANNEL_NUM (configured d1)).
  destruct (readAndSaveSomeData EDL_CHANNEL_NUM (configured d1)) as [[res|e] f ev];
    cbn [outcome final events]; [|reflexivity].
  destruct (differs res EdlSuccess); run.
  - unfold prepend, ret. cbn [outcome final events]. rewrite app_nil_r.
    reflexivity.
  - rewrite !prepend_prepend. unfold prepend. cbn [outcome final events].
    f_equal.
Qed.

End MainRun.

(** ** Projections of the parts of a run *)

Lemma status_results_app (t1 t2 : list Event) :
  status_results (t1 ++ t2) = status_results t1 ++ status_results t2.
Proof. apply flat_map_app. Qed.

Lemma due_reads_app (t1 t2 : list Event) :
  due_reads (t1 ++ t2) = due_reads t1 ++ due_reads t2.
Proof. apply flat_map_app. Qed.

Lemma disconnect_results_app (t1 t2 : list Event) :
  disconnect_results (t1 ++ t2) = disconnect_results t1 ++ disconnect_results t2.
Proof. apply flat_map_app. Qed.

Lemma slept_app (t1 t2 : list Event) : slept (t1 ++ t2) = slept t1 + slept t2.
Proof.
  induction t1 as [|e t1 IH]; [reflexivity|].
  cbn [app slept fold_right]. fold (slept (t1 ++ t2)). fold (slept t1).
  rewrite IH. destruct e; lia.
Qed.


(** What passive events leave unchanged. *)
Lemma passive_projections (tr : list Event) :
  forallb passive tr = true ->
  read_requests tr = [] /\ status_results tr = [] /\ due_reads tr = [] /\
  slept tr = 0 /\ fclose_count tr = 0%nat /\ existsb fatal tr = false /\
  disconnect_results tr = [] /\ existsb is_failed_status tr = false.
Proof.
  induction tr as [|e tr IH]; [repeat split|].
  cbn [forallb]. intros H. apply andb_true_iff in H. destruct H as [He Ht].
  destruct (IH Ht) as (H1 & H2 & H3 & H4 & H5 & H6 & H7 & H8).
  destruct e; try discriminate He; repeat split; assumption.
Qed.

Lemma passive_advisories (status : EdlDeviceStatus_t) :
  forallb passive (advisories status) = true.
Proof. destruct status as [a [] []]; reflexivity. Qed.

Lemma passive_shortfall (res : EdlErrorCode_t) (n : N) :
  forallb passive (shortfall res n) = true.
Proof. unfold shortfall. destruct (equals _ _); reflexivity. Qed.

Lemma passive_save_packets {D : Type} (EDL_CHANNEL_NUM n : N) (data : list float) (d : D) :
  forallb passive (events (save_packets EDL_CHANNEL_NUM n data d)) = true.
Proof.
  apply (forallb_impl is_fwrite); [|apply save_packets_emits].
  intros [] H; try discriminate H; reflexivity.
Qed.

(** What the reads called for are: at least the threshold each, and no
    more of them than status queries. *)
Lemma due_reads_bounds (tr : list Event) :
  Forall (fun k => MINIMUM_DATA_PACKETS_TO_READ <= k) (due_reads tr) /\
  (List.length (due_reads tr) <= List.length (status_results tr))%nat.
Proof.
  induction tr as [|e tr [IH1 IH2]]; [split; [constructor|reflexivity]|].
  change (e :: tr) with ([e] ++ tr).
  rewrite due_reads_app, status_results_app, !length_app. split.
  - apply Forall_app. split; [|exact IH1].
    destruct e; try constructor. cbn.
    destruct (differs res EdlSuccess); [constructor|].
    destruct (N.leb_spec MINIMUM_DATA_PACKETS_TO_READ (availableDataPackets status));
      repeat constructor; assumption.
  - destruct e; cbn [due_reads status_results flat_map List.length app]; try lia.
    destruct (differs res EdlSuccess); [cbn; lia|].
    destruct (MINIMUM_DATA_PACKETS_TO_READ <=? availableDataPackets status)%N; cbn; lia.
Qed.

(** ** Which reads the loop issues *)

Section Reads.

Context {D : Type} {edl : EDL D}.
Variable EDL_CHANNEL_NUM : N.

Lemma poll_read_iteration_reads_due (d : D) :
  read_requests (events (poll_read_iteration EDL_CHANNEL_NUM d)) =
    due_reads (events (poll_read_iteration EDL_CHANNEL_NUM d)) /\
  List.length (status_results (events (poll_read_iteration EDL_CHANNEL_NUM d))) = 1%nat.
Proof.
  rewrite poll_read_iteration_run.
  destruct (getDeviceStatus d) as [[res status] d1].
  destruct (passive_projections _ (passive_advisories status)) as (A1 & A2 & A3 & _).
  destruct (differs res EdlSuccess) eqn:Hres.
  { cbn [events read_requests due_reads status_results flat_map app]. rewrite Hres. auto. }
  destruct (MINIMUM_DATA_PACKETS_TO_READ <=? availableDataPackets status)%N eqn:Hk.
  - destruct (readData (availableDataPackets status) d1) as [[[res' n] data] d2].
    destruct (equals res' EdlDeviceNotConnectedError).
    + cbn [events].
      change (EvGetDeviceStatus res status :: ?l) with ([EvGetDeviceStatus res status] ++ l).
      rewrite !read_requests_app, !due_reads_app, !status_results_app, A1, A2, A3.
      cbn [read_requests due_reads status_results flat_map app List.length].
      rewrite Hres, Hk. auto.
    + cbv zeta. cbn [events].
      destruct (passive_projections _ (passive_shortfall res' n)) as (S1 & S2 & S3 & _).
      destruct (passive_projections _ (passive_save_packets EDL_CHANNEL_NUM n data d2))
        as (W1 & W2 & W3 & _).
      change (EvGetDeviceStatus res status :: ?l) with ([EvGetDeviceStatus res status] ++ l).
      change (EvReadData ?k res' n data :: ?l) with ([EvReadData k res' n data] ++ l).
      rewrite !read_requests_app, !due_reads_app, !status_results_app,
        A1, A2, A3, S1, S2, S3, W1, W2, W3.
      cbn [read_requests due_reads status_results flat_map app List.length].
      rewrite Hres, Hk. auto.
  - cbn [events].
    change (EvGetDeviceStatus res status :: ?l) with ([EvGetDeviceStatus res status] ++ l).
    rewrite !read_requests_app, !due_reads_app, !status_results_app, A1, A2, A3.
    cbn [read_requests due_reads status_results flat_map app List.length].
    rewrite Hres, Hk. auto.
Qed.

Lemma poll_read_loop_reads_due (budget : nat) :
  forall (res : EdlErrorCode_t) (d : D),
    read_requests (events (poll_read_loop EDL_CHANNEL_NUM budget res d)) =
      due_reads (events (poll_read_loop EDL_CHANNEL_NUM budget res d)) /\
    (List.length (status_results (events (poll_read_loop EDL_CHANNEL_NUM budget res d)))
     <= budget)%nat.
Proof.
  induction budget as [|b IH]; intros res d; [split; reflexivity|].
  rewrite poll_read_loop_S. cbv zeta.
  destruct (poll_read_iteration_reads_due d) as [Hr Hs].
  destruct (outcome (poll_read_iteration EDL_CHANNEL_NUM d)) as [[res'|res']|e];
    cbn [events]; try (split; [exact Hr|lia]).
  destruct (IH res' (final (poll_read_iteration EDL_CHANNEL_NUM d))) as [Hr' Hs'].
  rewrite read_requests_app, due_reads_app, status_results_app, length_app, Hr, Hr'.
  split; [reflexivity|lia].
Qed.

End Reads.

(** X3.  In every run of [readAndSaveSomeData], on any session, the reads
    issued are exactly those the status snapshots call for: one read
    after each successful status query that reports at least
    [MINIMUM_DATA_PACKETS_TO_READ] packets, requesting exactly the
    reported count.  So no read ever requests fewer than ten packets,
    there are never more reads than status queries, and never more than
    1000 status queries. *)
Theorem reads_follow_status :
  forall (D : Type) (edl : EDL D) (EDL_CHANNEL_NUM : N) (d : D),
    let tr := events (readAndSaveSomeData EDL_CHANNEL_NUM d) in
    read_requests tr = due_reads tr /\
    Forall (fun k => MINIMUM_DATA_PACKETS_TO_READ <= k) (read_requests tr) /\
    (List.length (read_requests tr) <= List.length (status_results tr))%nat /\
    (List.length (status_results tr) <= 1000)%nat.
Proof.
  intros D edl CH d tr.
  assert (H : read_requests tr = due_reads tr /\
              (List.length (status_results tr) <= 1000)%nat).
  { subst tr. rewrite readAndSaveSomeData_run.
    destruct (purgeData d) as [res d1].
    destruct (differs res EdlSuccess); [split; [reflexivity|cbn; lia]|].
    cbv zeta. cbn [events].
    destruct (poll_read_loop_reads_due CH ITERATIONS res d1) as [Hr Hs].
    assert (HI : ITERATIONS = 1000%nat) by reflexivity.
    rewrite !read_requests_app, !due_reads_app, !status_results_app, !length_app, Hr.
    destruct (outcome (poll_read_loop CH ITERATIONS res d1)) as [[?|?]|?];
      (split; [reflexivity|cbn [status_results flat_map List.length app]; lia]). }
  destruct H as [Hr Hs]. destruct (due_reads_bounds tr) as [Hf Hl].
  rewrite Hr. auto.
Qed.

(** ** Polls below the threshold *)

Section Gating.

Context {D : Type} {edl : EDL D}.
Variable EDL_CHANNEL_NUM : N.

(** Every pass through the loop body starts with a status query. *)
Lemma poll_read_iteration_head (d : D) :
  exists rest,
    events (poll_read_iteration EDL_CHANNEL_NUM d) =
    EvGetDeviceStatus (fst (fst (getDeviceStatus d))) (snd (fst (getDeviceStatus d))) :: rest.
Proof.
  rewrite poll_read_iteration_run.
  destruct (getDeviceStatus d) as [[res status] d1]. cbn [fst snd].
  destruct (differs res EdlSuccess); [eexists; reflexivity|].
  destruct (MINIMUM_DATA_PACKETS_TO_READ <=? availableDataPackets status)%N;
    [|eexists; reflexivity].
  destruct (readData (availableDataPackets status) d1) as [[[res' n] data] d2].
  destruct (equals res' EdlDeviceNotConnectedError); eexists; reflexivity.
Qed.

(** The events of one pass are the first events of the loop. *)
Lemma poll_read_loop_prefix (budget : nat) (res : EdlErrorCode_t) (d : D) :
  exists rest,
    events (poll_read_loop EDL_CHANNEL_NUM (S budget) res d) =
    events (poll_read_iteration EDL_CHANNEL_NUM d) ++ rest.
Proof.
  rewrite poll_read_loop_S. cbv zeta.
  destruct (outcome (poll_read_iteration EDL_CHANNEL_NUM d)) as [[res'|res']|e];
    cbn [events]; eexists; try reflexivity; symmetry; apply app_nil_r.
Qed.

Lemma poll_read_iteration_below (d : D) :
  polls_below_threshold (events (poll_read_iteration EDL_CHANNEL_NUM d)) = true ->
  exists status d1,
    poll_read_iteration EDL_CHANNEL_NUM d =
    mkRun (Done (Continue EdlSuccess)) d1
          (EvGetDeviceStatus EdlSuccess status :: advisories status ++ [EvSleep 1]).
Proof.
  intros H. destruct (poll_read_iteration_head d) as [rest Hhead].
  rewrite Hhead in H. cbn [polls_below_threshold forallb] in H.
  apply andb_true_iff in H. destruct H as [H _].
  apply andb_true_iff in H. destruct H as [Hres Hk].
  rewrite poll_read_iteration_run.
  destruct (getDeviceStatus d) as [[res status] d1]. cbn [fst snd] in Hres, Hk.
  apply equals_true in Hres. subst res.
  apply N.ltb_lt in Hk. apply N.leb_gt in Hk. rewrite Hk.
  change (differs EdlSuccess EdlSuccess) with false. cbv iota.
  exists status, d1. reflexivity.
Qed.

Lemma poll_read_loop_below (budget : nat) :
  forall (res : EdlErrorCode_t) (d : D),
    let r := poll_read_loop EDL_CHANNEL_NUM budget res d in
    polls_below_threshold (events r) = true ->
    outcome r = Done (Continue (match budget with O => res | S _ => EdlSuccess end)) /\
    read_requests (events r) = [] /\
    written (events r) = [] /\
    List.length (status_results (events r)) = budget /\
    slept (events r) = N.of_nat budget /\
    fclose_count (events r) = 0%nat.
Proof.
  induction budget as [|b IH]; intros res d r H; [subst r; repeat split|].
  subst r. destruct (poll_read_loop_prefix b res d) as [rest Hpre].
  pose proof H as H'. rewrite Hpre in H'. unfold polls_below_threshold in H'.
  rewrite forallb_app in H'. apply andb_true_iff in H'. destruct H' as [Hit _].
  destruct (poll_read_iteration_below d Hit) as (status & d1 & Hrun).
  rewrite poll_read_loop_S in H |- *. rewrite Hrun in H |- *. cbv zeta in H |- *.
  cbn [outcome final events] in H |- *.
  unfold polls_below_threshold in H. rewrite forallb_app in H.
  apply andb_true_iff in H. destruct H as [_ H].
  destruct (IH EdlSuccess d1 H) as (Ho & Hr & Hw & Hs & Hsl & Hf).
  change (EvGetDeviceStatus EdlSuccess status :: advisories status ++ [EvSleep 1])
    with ([EvGetDeviceStatus EdlSuccess status] ++ advisories status ++ [EvSleep 1]).
  destruct (passive_projections _ (passive_advisories status))
    as (A1 & A2 & _ & A4 & A5 & _).
  rewrite !read_requests_app, !written_app, !status_results_app, !slept_app,
    !fclose_count_app, !length_app, Hr, Hw, Hs, Hsl, Hf, A1, A2, A4, A5,
    written_advisories.
  rewrite Ho. cbn [read_requests written status_results slept fclose_count
                   flat_map fold_right filter is_fclose List.length app].
  repeat split; try reflexivity; try lia.
  destruct b; reflexivity.
Qed.

End Gating.

(** X2.  Threshold gating.  In a run of [readAndSaveSomeData] whose purge
    succeeds and in which every status query succeeds and reports fewer
    than [MINIMUM_DATA_PACKETS_TO_READ] packets, no read is ever issued
    and nothing is written; the loop makes exactly 1000 status queries,
    waits 1 ms after each (1500 ms in all with the initial 500 ms), and
    the function returns [EdlSuccess]. *)
Theorem below_threshold_nothing_read :
  forall (D : Type) (edl : EDL D) (EDL_CHANNEL_NUM : N) (d : D),
    let r := readAndSaveSomeData EDL_CHANNEL_NUM d in
    fst (purgeData d) = EdlSuccess ->
    polls_below_threshold (events r) = true ->
    outcome r = Done EdlSuccess /\
    read_requests (events r) = [] /\
    written (events r) = [] /\
    List.length (status_results (events r)) = 1000%nat /\
    slept (events r) = 1500.
Proof.
  intros D edl CH d r Hp H. subst r.
  rewrite readAndSaveSomeData_run in H |- *.
  destruct (purgeData d) as [res d1]. cbn [fst] in Hp. subst res.
  change (differs EdlSuccess EdlSuccess) with false in H |- *.
  cbv iota zeta in H |- *. cbn [outcome events] in H |- *.
  unfold polls_below_threshold in H. rewrite !forallb_app in H.
  apply andb_true_iff in H. destruct H as [_ H].
  apply andb_true_iff in H. destruct H as [H _].
  destruct (poll_read_loop_below CH ITERATIONS EdlSuccess d1 H)
    as (Ho & Hr & Hw & Hs & Hsl & _).
  rewrite !read_requests_app, !written_app, !status_results_app, !slept_app,
    !length_app, Hr, Hw, Hs, Hsl, Ho.
  repeat split.
Qed.

Lemma below_threshold_nothing_read_witness :
  outcome (readAndSaveSomeData 8 idle) = Done EdlSuccess /\
  read_requests (events (readAndSaveSomeData 8 idle)) = [] /\
  written (events (readAndSaveSomeData 8 idle)) = [] /\
  List.length (status_results (events (readAndSaveSomeData 8 idle))) = 1000%nat /\
  slept (events (readAndSaveSomeData 8 idle)) = 1500.
Proof.
  apply (below_threshold_nothing_read Mock Mock_EDL 8 idle).
  - reflexivity.
  - vm_compute. reflexivity.
Defined.

(** ** How the acquisition ends *)

Lemma differs_false_eq (a b : EdlErrorCode_t) : differs a b = false -> a = b.
Proof. unfold differs. destruct (EdlErrorCode_eq_dec a b); [auto|discriminate]. Qed.

Section Endings.

Context {D : Type} {edl : EDL D}.
Variable EDL_CHANNEL_NUM : N.

(** A pass that returns, returns an error; a pass that goes on has made
    one successful status query and met nothing fatal. *)
Lemma poll_read_iteration_outcomes (d : D) :
  match outcome (poll_read_iteration EDL_CHANNEL_NUM d) with
  | Done (Return res) => res <> EdlSuccess
  | Done (Continue _) =>
      status_results (events (poll_read_iteration EDL_CHANNEL_NUM d)) = [EdlSuccess] /\
      existsb fatal (events (poll_read_iteration EDL_CHANNEL_NUM d)) = false /\
      fclose_count (events (poll_read_iteration EDL_CHANNEL_NUM d)) = 0%nat
  | Thrown _ => True
  end.
Proof.
  rewrite poll_read_iteration_run.
  destruct (getDeviceStatus d) as [[res status] d1].
  destruct (passive_projections _ (passive_advisories status))
    as (_ & A2 & _ & _ & A5 & A6 & _).
  destruct (differs res EdlSuccess) eqn:Hres.
  { cbn [outcome]. apply differs_true. exact Hres. }
  pose proof (differs_false_eq _ _ Hres) as ->.
  destruct (MINIMUM_DATA_PACKETS_TO_READ <=? availableDataPackets status)%N.
  - destruct (readData (availableDataPackets status) d1) as [[[res' n] data] d2].
    destruct (equals res' EdlDeviceNotConnectedError) eqn:Hnc.
    + cbn [outcome]. apply equals_true in Hnc. subst res'. discriminate.
    + cbv zeta. cbn [outcome events].
      destruct (outcome (save_packets EDL_CHANNEL_NUM n data d2)); [|exact I].
      destruct (passive_projections _ (passive_shortfall res' n))
        as (_ & S2 & _ & _ & S5 & S6 & _).
      destruct (passive_projections _ (passive_save_packets EDL_CHANNEL_NUM n data d2))
        as (_ & W2 & _ & _ & W5 & W6 & _).
      change (EvGetDeviceStatus EdlSuccess status :: ?l)
        with ([EvGetDeviceStatus EdlSuccess status] ++ l).
      change (EvReadData ?k res' n data :: ?l) with ([EvReadData k res' n data] ++ l).
      rewrite !status_results_app, !existsb_app, !fclose_count_app,
        A2, A5, A6, S2, S5, S6, W2, W5, W6.
      cbn [status_results flat_map app existsb fatal orb fclose_count filter
           is_fclose List.length]. rewrite Hnc. auto.
  - cbn [outcome events].
    change (EvGetDeviceStatus EdlSuccess status :: ?l)
      with ([EvGetDeviceStatus EdlSuccess status] ++ l).
    rewrite !status_results_app, !existsb_app, !fclose_count_app, A2, A5, A6.
    auto.
Qed.

Lemma poll_read_loop_outcomes (budget : nat) :
  forall (res : EdlErrorCode_t) (d : D),
    match outcome (poll_read_loop EDL_CHANNEL_NUM budget res d) with
    | Done (Return res') => res' <> EdlSuccess
    | Done (Continue _) =>
        status_results (events (poll_read_loop EDL_CHANNEL_NUM budget res d)) =
          repeat EdlSuccess budget /\
        existsb fatal (events (poll_read_loop EDL_CHANNEL_NUM budget res d)) = false /\
        fclose_count (events (poll_read_loop EDL_CHANNEL_NUM budget res d)) = 0%nat
    | Thrown _ => True
    end.
Proof.
  induction budget as [|b IH]; intros res d; [repeat split|].
  rewrite poll_read_loop_S. cbv zeta.
  pose proof (poll_read_iteration_outcomes d) as Hit.
  destruct (outcome (poll_read_iteration EDL_CHANNEL_NUM d)) as [[res'|res']|e];
    cbn [outcome events]; [|exact Hit|exact I].
  specialize (IH res' (final (poll_read_iteration EDL_CHANNEL_NUM d))).
  destruct (outcome (poll_read_loop EDL_CHANNEL_NUM b res'
                       (final (poll_read_iteration EDL_CHANNEL_NUM d))))
    as [[r|r]|e]; [|exact IH|exact I].
  destruct Hit as (H1 & H2 & H3). destruct IH as (I1 & I2 & I3).
  rewrite status_results_app, existsb_app, fclose_count_app, H1, H2, H3, I1, I2, I3.
  repeat split.
Qed.

(** *** A status query that fails *)

Lemma poll_read_iteration_failed_status (d : D) :
  let r := poll_read_iteration EDL_CHANNEL_NUM d in
  existsb is_failed_status (events r) = false \/
  (exists res status,
      events r = [EvGetDeviceStatus res status;
                  EvCout ("failed to get device status" ++ endl)] /\
      outcome r = Done (Return res)).
Proof.
  cbv zeta. rewrite poll_read_iteration_run.
  destruct (getDeviceStatus d) as [[res status] d1].
  destruct (passive_projections _ (passive_advisories status))
    as (_ & _ & _ & _ & _ & _ & _ & A8).
  destruct (differs res EdlSuccess) eqn:Hres.
  { right. exists res, status. split; reflexivity. }
  left.
  destruct (MINIMUM_DATA_PACKETS_TO_READ <=? availableDataPackets status)%N.
  - destruct (readData (availableDataPackets status) d1) as [[[res' n] data] d2].
    destruct (equals res' EdlDeviceNotConnectedError).
    + cbn [events existsb is_failed_status]. rewrite Hres, existsb_app, A8. reflexivity.
    + cbv zeta. cbn [events existsb is_failed_status].
      destruct (passive_projections _ (passive_shortfall res' n))
        as (_ & _ & _ & _ & _ & _ & _ & S8).
      destruct (passive_projections _ (passive_save_packets EDL_CHANNEL_NUM n data d2))
        as (_ & _ & _ & _ & _ & _ & _ & W8).
      rewrite Hres, existsb_app, A8. cbn [existsb is_failed_status orb].
      rewrite existsb_app, S8, W8. reflexivity.
  - cbn [events existsb is_failed_status]. rewrite Hres, existsb_app, A8. reflexivity.
Qed.

Lemma poll_read_loop_failed_status (budget : nat) :
  forall (res : EdlErrorCode_t) (d : D),
    let r := poll_read_loop EDL_CHANNEL_NUM budget res d in
    existsb is_failed_status (events r) = false \/
    (exists pre res' status,
        events r = pre ++ [EvGetDeviceStatus res' status;
                           EvCout ("failed to get device status" ++ endl)] /\
        existsb is_failed_status pre = false /\
        outcome r = Done (Return res')).
Proof.
  induction budget as [|b IH]; intros res d; cbv zeta; [left; reflexivity|].
  rewrite poll_read_loop_S. cbv zeta.
  destruct (poll_read_iteration_failed_status d) as [Hok|(res' & status & Hev & Hout)].
  - destruct (outcome (poll_read_iteration EDL_CHANNEL_NUM d)) as [[res'|res']|e];
      cbn [outcome events]; try (left; exact Hok).
    destruct (IH res' (final (poll_read_iteration EDL_CHANNEL_NUM d)))
      as [H|(pre & r & status & Hev & Hpre & Hout)].
    + left. rewrite existsb_app, Hok, H. reflexivity.
    + right. exists (events (poll_read_iteration EDL_CHANNEL_NUM d) ++ pre), r, status.
      rewrite Hev, app_assoc, existsb_app, Hok, Hpre. auto.
  - rewrite Hout. cbn [outcome events]. right. exists [], res', status. auto.
Qed.

Lemma readAndSaveSomeData_failed_status (d : D) :
  let r := readAndSaveSomeData EDL_CHANNEL_NUM d in
  existsb is_failed_status (events r) = false \/
  (exists pre res' status,
      events r = pre ++ [EvGetDeviceStatus res' status;
                         EvCout ("failed to get device status" ++ endl)] /\
      existsb is_failed_status pre = false /\
      outcome r = Done res').
Proof.
  cbv zeta. rewrite readAndSaveSomeData_run.
  destruct (purgeData d) as [res d1].
  destruct (differs res EdlSuccess); [left; reflexivity|]. cbv zeta.
  destruct (poll_read_loop_failed_status ITERATIONS res d1)
    as [H|(pre & r & status & Hev & Hpre & Hout)].
  - left. cbn [events]. rewrite !existsb_app, H.
    destruct (outcome (poll_read_loop EDL_CHANNEL_NUM ITERATIONS res d1)) as [[?|?]|?];
      reflexivity.
  - right. rewrite Hout, Hev. cbn [outcome events]. rewrite app_nil_r.
    eexists (_ ++ pre), r, status. rewrite app_assoc. split; [reflexivity|].
    rewrite existsb_app, Hpre. auto.
Qed.

End Endings.

(** A trace has one decomposition at its first marked event. *)
Lemma first_marked_unique (mark : Event -> bool) (pre' tail : list Event) (R : Event) :
  existsb mark pre' = false ->
  existsb mark tail = false ->
  forall (pre post : list Event) (x : Event),
    mark x = true ->
    pre' ++ R :: tail = pre ++ x :: post ->
    pre = pre' /\ x = R /\ post = tail.
Proof.
  intros Hpre' Htail. induction pre' as [|a p IH]; intros pre post x Hx Heq.
  - destruct pre as [|y pre]; cbn [app] in Heq.
    + injection Heq as <- <-. auto.
    + injection Heq as _ Heq. exfalso. rewrite Heq, existsb_app in Htail.
      cbn [existsb] in Htail. rewrite Hx, orb_true_r in Htail. discriminate.
  - cbn [existsb] in Hpre'. apply orb_false_iff in Hpre'. destruct Hpre' as [Ha Hp].
    destruct pre as [|y pre]; cbn [app] in Heq.
    + injection Heq as <- _. congruence.
    + injection Heq as <- Heq. destruct (IH Hp pre post x Hx Heq) as (-> & -> & ->).
      auto.
Qed.

(** X4.  When [readAndSaveSomeData] returns [EdlSuccess], the acquisition
    ran to its end: all 1000 status queries were made and each
    succeeded, the purge succeeded, no read reported a lost connection,
    and the function did not close the data file (that is left to
    [main]). *)
Theorem success_means_full_budget :
  forall (D : Type) (edl : EDL D) (EDL_CHANNEL_NUM : N) (d : D),
    let r := readAndSaveSomeData EDL_CHANNEL_NUM d in
    outcome r = Done EdlSuccess ->
    status_results (events r) = repeat EdlSuccess 1000 /\
    existsb fatal (events r) = false /\
    fclose_count (events r) = 0%nat.
Proof.
  intros D edl CH d r. subst r. rewrite readAndSaveSomeData_run.
  destruct (purgeData d) as [res d1].
  destruct (differs res EdlSuccess) eqn:Hres.
  { cbn [outcome]. intros [= ->]. discriminate Hres. }
  cbv zeta. cbn [outcome events]. intros H.
  pose proof (poll_read_loop_outcomes CH ITERATIONS res d1) as Hloop.
  destruct (outcome (poll_read_loop CH ITERATIONS res d1)) as [[r|r]|e];
    [|injection H as ->; congruence|discriminate H].
  destruct Hloop as (H1 & H2 & H3).
  rewrite !status_results_app, !existsb_app, !fclose_count_app, H1, H2, H3.
  cbn [status_results flat_map app existsb fatal orb fclose_count filter is_fclose
       List.length]. rewrite Hres, app_nil_r. repeat split.
Qed.

Lemma success_means_full_budget_witness :
  status_results (events (readAndSaveSomeData 8 burst)) = repeat EdlSuccess 1000 /\
  existsb fatal (events (readAndSaveSomeData 8 burst)) = false /\
  fclose_count (events (readAndSaveSomeData 8 burst)) = 0%nat.
Proof.
  apply (success_means_full_budget Mock Mock_EDL 8 burst).
  vm_compute. reflexivity.
Defined.

(** X5.  When the purge fails, [readAndSaveSomeData] prints its message
    and returns the error of [purgeData] at once: it makes no status
    query and no read and writes nothing. *)
Theorem purge_failure_stops :
  forall (D : Type) (edl : EDL D) (EDL_CHANNEL_NUM : N) (d : D),
    fst (purgeData d) <> EdlSuccess ->
    readAndSaveSomeData EDL_CHANNEL_NUM d =
    mkRun (Done (fst (purgeData d))) (snd (purgeData d))
          [EvSleep 500; EvCout ("purge old data" ++ endl);
           EvPurgeData (fst (purgeData d)); EvCout ("failed to purge data" ++ endl)].
Proof.
  intros D edl CH d H. rewrite readAndSaveSomeData_run.
  destruct (purgeData d) as [res d1]. cbn [fst snd] in *.
  apply differs_true in H. rewrite H. reflexivity.
Qed.

Lemma purge_failure_stops_witness :
  outcome (readAndSaveSomeData 8 (with_purge (EdlOtherError 3) burst)) =
    Done (EdlOtherError 3) /\
  status_results (events (readAndSaveSomeData 8 (with_purge (EdlOtherError 3) burst))) = [] /\
  read_requests (events (readAndSaveSomeData 8 (with_purge (EdlOtherError 3) burst))) = [].
Proof.
  rewrite (purge_failure_stops Mock Mock_EDL 8 (with_purge (EdlOtherError 3) burst));
    [repeat split|discriminate].
Defined.

(** X6.  Whenever a status query fails, [readAndSaveSomeData] prints its
    message and returns the error of that query at once: the failed
    query is followed by no read, no write and no further query. *)
Theorem status_failure_short_circuit :
  forall (D : Type) (edl : EDL D) (EDL_CHANNEL_NUM : N) (d : D)
         (pre post : list Event) (res : EdlErrorCode_t) (status : EdlDeviceStatus_t),
    res <> EdlSuccess ->
    events (readAndSaveSomeData EDL_CHANNEL_NUM d) =
      pre ++ EvGetDeviceStatus res status :: post ->
    post = [EvCout ("failed to get device status" ++ endl)] /\
    outcome (readAndSaveSomeData EDL_CHANNEL_NUM d) = Done res /\
    existsb is_failed_status pre = false.
Proof.
  intros D edl CH d pre post res status Hres Heq.
  assert (Hmark : is_failed_status (EvGetDeviceStatus res status) = true).
  { apply differs_true. exact Hres. }
  destruct (readAndSaveSomeData_failed_status CH d)
    as [H|(pre' & res' & status' & Hev & Hpre' & Hout)].
  - exfalso. rewrite Heq, existsb_app in H. cbn [existsb] in H.
    rewrite Hmark, orb_true_r in H. discriminate.
  - rewrite Hev in Heq.
    destruct (first_marked_unique is_failed_status pre'
                [EvCout ("failed to get device status" ++ endl)] _ Hpre' eq_refl
                pre post _ Hmark Heq) as (-> & Hx & ->).
    injection Hx as -> _. auto.
Qed.

Lemma status_failure_short_circuit_witness :
  outcome (readAndSaveSomeData 8 status_fails) = Done (EdlOtherError 1) /\
  skipn 5 (events (readAndSaveSomeData 8 status_fails)) =
    [EvCout ("failed to get device status" ++ endl)].
Proof.
  destruct (status_failure_short_circuit Mock Mock_EDL 8 status_fails
              (firstn 4 (events (readAndSaveSomeData 8 status_fails)))
              (skipn 5 (events (readAndSaveSomeData 8 status_fails)))
              (EdlOtherError 1) (mkStatus 0 false false))
    as (Hpost & Hout & _).
  - discriminate.
  - reflexivity.
  - split; [exact Hout|exact Hpost].
Defined.

(** ** What the data file holds *)

Lemma batches_app (EDL_CHANNEL_NUM : N) (t1 t2 : list Event) :
  batches EDL_CHANNEL_NUM (t1 ++ t2) =
  batches EDL_CHANNEL_NUM t1 ++ batches EDL_CHANNEL_NUM t2.
Proof. apply flat_map_app. Qed.

Lemma batches_passive (EDL_CHANNEL_NUM : N) (tr : list Event) :
  forallb passive tr = true -> batches EDL_CHANNEL_NUM tr = [].
Proof.
  induction tr as [|e tr IH]; [reflexivity|]. cbn [forallb].
  intros H. apply andb_true_iff in H. destruct H as [He Ht].
  destruct e; try discriminate He; exact (IH Ht).
Qed.

Lemma reads_well_formed_app (EDL_CHANNEL_NUM : N) (t1 t2 : list Event) :
  reads_well_formed EDL_CHANNEL_NUM (t1 ++ t2) =
  reads_well_formed EDL_CHANNEL_NUM t1 && reads_well_formed EDL_CHANNEL_NUM t2.
Proof. apply forallb_app. Qed.

Section Stored.

Context {D : Type} {edl : EDL D}.
Variable EDL_CHANNEL_NUM : N.

Lemma poll_read_iteration_stores (d : D) :
  reads_well_formed EDL_CHANNEL_NUM (events (poll_read_iteration EDL_CHANNEL_NUM d)) = true ->
  written (events (poll_read_iteration EDL_CHANNEL_NUM d)) =
    batches EDL_CHANNEL_NUM (events (poll_read_iteration EDL_CHANNEL_NUM d)) /\
  exists step, outcome (poll_read_iteration EDL_CHANNEL_NUM d) = Done step.
Proof.
  rewrite poll_read_iteration_run.
  destruct (getDeviceStatus d) as [[res status] d1].
  pose proof (batches_passive EDL_CHANNEL_NUM _ (passive_advisories status)) as A.
  destruct (differs res EdlSuccess) eqn:Hres.
  { intros _. split; [reflexivity|eexists; reflexivity]. }
  pose proof (differs_false_eq _ _ Hres) as ->.
  destruct (MINIMUM_DATA_PACKETS_TO_READ <=? availableDataPackets status)%N.
  - destruct (readData (availableDataPackets status) d1) as [[[res' n] data] d2].
    destruct (equals res' EdlDeviceNotConnectedError) eqn:Hnc.
    + intros _. split; [|eexists; reflexivity]. cbn [events].
      change (EvGetDeviceStatus EdlSuccess status :: ?l)
        with ([EvGetDeviceStatus EdlSuccess status] ++ l).
      rewrite !written_app, !batches_app, A, written_advisories.
      cbn [written batches batch_of flat_map app]. rewrite Hnc. reflexivity.
    + cbv zeta. cbn [events outcome]. intros H.
      change (EvGetDeviceStatus EdlSuccess status :: ?l)
        with ([EvGetDeviceStatus EdlSuccess status] ++ l) in H.
      change (EvReadData ?k res' n data :: ?l) with ([EvReadData k res' n data] ++ l) in H.
      rewrite !reads_well_formed_app in H.
      apply andb_true_iff in H. destruct H as [_ H].
      apply andb_true_iff in H. destruct H as [_ H].
      apply andb_true_iff in H. destruct H as [H _].
      cbn [reads_well_formed forallb] in H. rewrite Hnc, andb_true_r in H.
      cbn [orb] in H. apply andb_true_iff in H. destruct H as [Hc Hr].
      apply Nat.leb_le in Hc. apply N.leb_le in Hr.
      rewrite (save_packets_run EDL_CHANNEL_NUM data n d2 Hc). cbn [outcome events].
      split; [|eexists; reflexivity].
      rewrite written_iteration_reads.
      destruct (writes_prefix data _ Hc) as [_ Hw]; [lia|]. rewrite Hw.
      change (EvGetDeviceStatus EdlSuccess status :: ?l)
        with ([EvGetDeviceStatus EdlSuccess status] ++ l).
      change (EvReadData ?k res' n data :: ?l) with ([EvReadData k res' n data] ++ l).
      rewrite !batches_app, A, (batches_passive _ _ (passive_shortfall res' n)).
      rewrite (batches_passive EDL_CHANNEL_NUM (map (write_of data) _)).
      * cbn [batches batch_of flat_map app]. rewrite Hnc, !app_nil_r. reflexivity.
      * pose proof (passive_save_packets EDL_CHANNEL_NUM n data d2) as P.
        rewrite (save_packets_run EDL_CHANNEL_NUM data n d2 Hc) in P. exact P.
  - intros _. split; [|eexists; reflexivity]. cbn [events].
    change (EvGetDeviceStatus EdlSuccess status :: ?l)
      with ([EvGetDeviceStatus EdlSuccess status] ++ l).
    rewrite !written_app, !batches_app, A, written_advisories. reflexivity.
Qed.

Lemma poll_read_loop_stores (budget : nat) :
  forall (res : EdlErrorCode_t) (d : D),
    reads_well_formed EDL_CHANNEL_NUM
      (events (poll_read_loop EDL_CHANNEL_NUM budget res d)) = true ->
    written (events (poll_read_loop EDL_CHANNEL_NUM budget res d)) =
      batches EDL_CHANNEL_NUM (events (poll_read_loop EDL_CHANNEL_NUM budget res d)) /\
    exists step, outcome (poll_read_loop EDL_CHANNEL_NUM budget res d) = Done step.
Proof.
  induction budget as [|b IH]; intros res d H;
    [split; [reflexivity|eexists; reflexivity]|].
  destruct (poll_read_loop_prefix EDL_CHANNEL_NUM b res d) as [rest Hpre].
  pose proof H as H'. rewrite Hpre, reads_well_formed_app in H'.
  apply andb_true_iff in H'. destruct H' as [Hit _].
  destruct (poll_read_iteration_stores d Hit) as [Hw [step Hstep]].
  rewrite poll_read_loop_S in H |- *. cbv zeta in H |- *. rewrite Hstep in H |- *.
  destruct step as [res'|res']; cbn [outcome events] in H |- *.
  - rewrite reads_well_formed_app in H. apply andb_true_iff in H. destruct H as [_ H].
    destruct (IH res' _ H) as [Hw' Hs'].
    rewrite written_app, batches_app, Hw, Hw'. split; [reflexivity|exact Hs'].
  - split; [exact Hw|eexists; reflexivity].
Qed.

Lemma readAndSaveSomeData_stores (d : D) :
  reads_well_formed EDL_CHANNEL_NUM (events (readAndSaveSomeData EDL_CHANNEL_NUM d)) = true ->
  written (events (readAndSaveSomeData EDL_CHANNEL_NUM d)) =
    batches EDL_CHANNEL_NUM (events (readAndSaveSomeData EDL_CHANNEL_NUM d)) /\
  exists res, outcome (readAndSaveSomeData EDL_CHANNEL_NUM d) = Done res.
Proof.
  rewrite readAndSaveSomeData_run.
  destruct (purgeData d) as [res d1].
  destruct (differs res EdlSuccess);
    [intros _; split; [reflexivity|eexists; reflexivity]|].
  cbv zeta. cbn [outcome events]. intros H.
  rewrite !reads_well_formed_app in H.
  apply andb_true_iff in H. destruct H as [_ H].
  apply andb_true_iff in H. destruct H as [H _].
  destruct (poll_read_loop_stores ITERATIONS res d1 H) as [Hw [step Hstep]].
  rewrite !written_app, !batches_app, Hw, Hstep.
  destruct step; (split; [reflexivity|eexists; reflexivity]).
Qed.

End Stored.

(** X7.  The content of the data file.  In a run of [readAndSaveSomeData]
    in which every read that is to be stored returns a vector holding its
    packets (fewer than 2^32 values), no exception is thrown and the file
    receives exactly the batches that were read, one after the other in
    the order of the reads: for each read its first
    [readPacketsNum * EDL_CHANNEL_NUM] values, four bytes each, with
    nothing in between. *)
Theorem file_holds_the_batches :
  forall (D : Type) (edl : EDL D) (EDL_CHANNEL_NUM : N) (d : D),
    let r := readAndSaveSomeData EDL_CHANNEL_NUM d in
    reads_well_formed EDL_CHANNEL_NUM (events r) = true ->
    (exists res, outcome r = Done res) /\
    written (events r) = batches EDL_CHANNEL_NUM (events r) /\
    sink (events r) = flat_map object_representation (batches EDL_CHANNEL_NUM (events r)).
Proof.
  intros D edl CH d r H.
  destruct (readAndSaveSomeData_stores CH d H) as [Hw Ho].
  split; [exact Ho|]. split; [exact Hw|]. unfold sink. subst r. rewrite Hw. reflexivity.
Qed.

Lemma file_holds_the_batches_witness :
  written (events (readAndSaveSomeData 8 short_once)) = repeat (sample x01) 8 /\
  sink (events (readAndSaveSomeData 8 short_once)) =
    flat_map object_representation (repeat (sample x01) 8).
Proof.
  destruct (file_holds_the_batches Mock Mock_EDL 8 short_once) as (_ & Hw & Hs).
  - vm_compute. reflexivity.
  - rewrite Hs, Hw. vm_compute. split; reflexivity.
Defined.

(** ** A vector shorter than announced *)

Lemma bind_Thrown_run {D A B : Type} (m : M D A) (k : A -> M D B) (d d' : D)
  (e : Exception) (ev : list Event) :
  m d = mkRun (Thrown e) d' ev ->
  bind m k d = mkRun (Thrown e) d' ev.
Proof. intros H. rewrite bind_run, H. reflexivity. Qed.

Section Short.

Context {D : Type}.
Variable EDL_CHANNEL_NUM : N.
Variable data : list float.

(** The inner loop stops at the first index beyond the vector. *)
Lemma save_channels_short (readPacketsIdx : N) (count : nat) :
  forall (channelIdx : N) (d : D),
    let q := readPacketsIdx * EDL_CHANNEL_NUM + channelIdx in
    (N.to_nat q <= List.length data < N.to_nat q + count)%nat ->
    q + N.of_nat count <= UINT_MODULUS ->
    for_range channelIdx count (save_value EDL_CHANNEL_NUM data readPacketsIdx) d =
    mkRun (Thrown (out_of_range (N.of_nat (List.length data)))) d
          (map (write_of data) (N_range q (List.length data - N.to_nat q))).
Proof.
  induction count as [|c IH]; intros channelIdx d q Hlen Hrange; [lia|].
  cbn [for_range].
  destruct (Nat.eq_dec (N.to_nat q) (List.length data)) as [Heq|Hne].
  - rewrite Heq, Nat.sub_diag. cbn [N_range map].
    apply bind_Thrown_run. unfold save_value. cbv zeta. fold q.
    rewrite wrap_uint_small by (unfold UINT_MODULUS in *; lia).
    unfold vector_at. rewrite Heq.
    rewrite (proj2 (nth_error_None data (List.length data)) (Nat.le_refl _)).
    rewrite bind_throw. rewrite <- Heq, N2Nat.id. reflexivity.
  - assert (Hin : in_bounds data q).
    { unfold in_bounds. rewrite wrap_uint_small by (unfold UINT_MODULUS in *; lia). lia. }
    rewrite (bind_Done _ _ _ _ _ _
               (save_value_run EDL_CHANNEL_NUM data readPacketsIdx channelIdx d Hin)).
    rewrite IH.
    + unfold prepend. cbn [outcome final events]. fold q.
      replace (List.length data - N.to_nat q)%nat
        with (S (List.length data - N.to_nat (N.succ q)))%nat by lia.
      cbn [N_range map app]. rewrite N.add_succ_r. reflexivity.
    + cbv zeta. rewrite N.add_succ_r. fold q. lia.
    + rewrite N.add_succ_r. fold q. lia.
Qed.

(** So does the loop over the packets. *)
Lemma save_packets_short (count : nat) :
  forall (readPacketsIdx : N) (d : D),
    let q := readPacketsIdx * EDL_CHANNEL_NUM in
    (N.to_nat q <= List.length data < N.to_nat q + count * N.to_nat EDL_CHANNEL_NUM)%nat ->
    q + N.of_nat count * EDL_CHANNEL_NUM <= UINT_MODULUS ->
    for_range readPacketsIdx count (save_channels EDL_CHANNEL_NUM data) d =
    mkRun (Thrown (out_of_range (N.of_nat (List.length data)))) d
          (map (write_of data) (N_range q (List.length data - N.to_nat q))).
Proof.
  induction count as [|c IH]; intros readPacketsIdx d q Hlen Hrange; [lia|].
  cbn [for_range].
  destruct (le_lt_dec (N.to_nat q + N.to_nat EDL_CHANNEL_NUM) (List.length data))
    as [Hfits|Hshort].
  - assert (Hin : forall x, In x (N_range q (N.to_nat EDL_CHANNEL_NUM)) ->
                            in_bounds data x).
    { intros x Hx. apply In_N_range in Hx. unfold in_bounds.
      rewrite wrap_uint_small by (unfold UINT_MODULUS in *; lia). lia. }
    rewrite (bind_Done _ _ _ _ _ _
               (save_channels_run EDL_CHANNEL_NUM data readPacketsIdx d Hin)).
    rewrite IH.
    + unfold prepend. cbn [outcome final events]. fold q.
      replace (N.succ readPacketsIdx * EDL_CHANNEL_NUM) with (q + EDL_CHANNEL_NUM)
        by (subst q; lia).
      rewrite <- map_app. do 2 f_equal.
      replace (List.length data - N.to_nat q)%nat
        with (N.to_nat EDL_CHANNEL_NUM
              + (List.length data - N.to_nat (q + EDL_CHANNEL_NUM)))%nat by lia.
      rewrite N_range_app, N2Nat.id. reflexivity.
    + cbv zeta. replace (N.succ readPacketsIdx * EDL_CHANNEL_NUM)
        with (q + EDL_CHANNEL_NUM) by (subst q; lia). lia.
    + replace (N.succ readPacketsIdx * EDL_CHANNEL_NUM)
        with (q + EDL_CHANNEL_NUM) by (subst q; lia). lia.
  - apply bind_Thrown_run. unfold save_channels.
    pose proof (save_channels_short readPacketsIdx (N.to_nat EDL_CHANNEL_NUM) 0 d) as H.
    cbv zeta in H. rewrite N.add_0_r in H. apply H; fold q; lia.
Qed.

End Short.

(** X8.  When the vector returned by [readData] holds fewer values than
    [readPacketsNum * EDL_CHANNEL_NUM] (a product within the range of
    [unsigned int]), persisting the batch writes every value the vector
    holds, in order, and then the checked access throws
    [std::out_of_range] at the index equal to the size of the vector;
    nothing is written after that. *)
Theorem short_vector_throws :
  forall (D : Type) (EDL_CHANNEL_NUM readPacketsNum : N) (data : list float) (d : D),
    (List.length data < N.to_nat readPacketsNum * N.to_nat EDL_CHANNEL_NUM)%nat ->
    readPacketsNum * EDL_CHANNEL_NUM <= UINT_MODULUS ->
    let r := save_packets EDL_CHANNEL_NUM readPacketsNum data d in
    outcome r = Thrown (out_of_range (N.of_nat (List.length data))) /\
    accessed (events r) = N_range 0 (List.length data) /\
    written (events r) = data.
Proof.
  intros D CH n data d Hlen Hrange r. subst r. unfold save_packets.
  pose proof (save_packets_short CH data (N.to_nat n) 0 d) as H. cbv zeta in H.
  rewrite N.mul_0_l, N2Nat.id, Nat.sub_0_r in H.
  rewrite H by lia. cbn [outcome events].
  destruct (writes_prefix data (List.length data) (Nat.le_refl _)) as [Ha Hw].
  - lia.
  - rewrite Ha, Hw, firstn_all. auto.
Qed.

Lemma short_vector_throws_witness :
  outcome (save_packets 8 2 eleven_values idle) = Thrown (out_of_range 11) /\
  accessed (events (save_packets 8 2 eleven_values idle)) = N_range 0 11 /\
  written (events (save_packets 8 2 eleven_values idle)) = eleven_values.
Proof.
  apply (short_vector_throws Mock 8 2 eleven_values idle).
  - vm_compute. lia.
  - vm_compute. discriminate.
Defined.

(** ** The disconnect phase, for any session *)

Lemma last_cons {A : Type} (l : list A) :
  forall a d : A, last (a :: l) d = last l a.
Proof.
  induction l as [|b l IH]; intros a d; [reflexivity|].
  change (last (a :: b :: l) d) with (last (b :: l) d). rewrite !IH. reflexivity.
Qed.

Lemma teardown_projections (tr : list Event) :
  forallb teardown tr = true ->
  setCommand_calls tr = [] /\ existsb is_fopen tr = false /\
  status_results tr = [] /\ read_requests tr = [] /\ written tr = [] /\
  existsb fatal tr = false /\ fclose_count tr = 0%nat /\ file_ok true tr = true.
Proof.
  induction tr as [|e tr IH]; [repeat split|].
  cbn [forallb]. intros H. apply andb_true_iff in H. destruct H as [He Ht].
  destruct (IH Ht) as (H1 & H2 & H3 & H4 & H5 & H6 & H7 & H8).
  destruct e; try discriminate He; repeat split; assumption.
Qed.

Section Teardown.

Context {D : Type} {edl : EDL D}.

Lemma disconnect_loop_account (budget : nat) :
  forall (res : EdlErrorCode_t) (d : D),
    let r := disconnect_loop budget res d in
    let rs := disconnect_results (events r) in
    (List.length rs <= budget)%nat /\
    ((0 < budget)%nat -> (1 <= List.length rs)%nat) /\
    outcome r = Done (last rs res) /\
    Forall (fun x => x <> EdlSuccess) (removelast rs) /\
    (last rs res <> EdlSuccess -> List.length rs = budget) /\
    slept (events r) =
      N.of_nat (List.length (filter (fun x => differs x EdlSuccess) rs)) /\
    forallb teardown (events r) = true.
Proof.
  induction budget as [|b IH]; intros res d; cbv zeta.
  { cbn. repeat split; try lia; constructor. }
  destruct (disconnectDevice d) as [res' d'] eqn:E.
  rewrite (disconnect_loop_step _ _ _ _ _ E).
  destruct (equals res' EdlSuccess) eqn:Hres.
  - apply equals_true in Hres. subst res'. cbn.
    repeat split; try lia; try (intros H; congruence); constructor.
  - cbv zeta. cbn [outcome events].
    destruct (IH res' d') as (I1 & I2 & I3 & I4 & I5 & I6 & I7).
    cbn [disconnect_results flat_map app slept fold_right forallb teardown andb].
    fold (disconnect_results (events (disconnect_loop b res' d'))).
    fold (slept (events (disconnect_loop b res' d'))).
    set (rs := disconnect_results (events (disconnect_loop b res' d'))) in *.
    apply equals_false in Hres. pose proof Hres as Hd. apply differs_true in Hd.
    rewrite last_cons. cbn [List.length filter]. rewrite Hd. cbn [List.length].
    repeat split; try lia; try assumption.
    + destruct rs as [|x rs']; [constructor|].
      change (removelast (res' :: x :: rs')) with (res' :: removelast (x :: rs')).
      constructor; assumption.
    + intros H. rewrite (I5 H). reflexivity.
Qed.

Lemma disconnect_phase_account (res : EdlErrorCode_t) (d : D) :
  let r := disconnect_phase res d in
  let rs := disconnect_results (events r) in
  (1 <= List.length rs <= 1000)%nat /\
  Forall (fun x => x <> EdlSuccess) (removelast rs) /\
  outcome r = Done (if equals (last rs res) EdlSuccess then 0%Z else (-1)%Z) /\
  (last rs res <> EdlSuccess -> List.length rs = 1000%nat) /\
  slept (events r) <= 1000 /\
  forallb teardown (events r) = true.
Proof.
  cbv zeta.
  destruct (disconnect_loop_account ATTEMPTS res d) as (I1 & I2 & I3 & I4 & I5 & I6 & I7).
  assert (HA : ATTEMPTS = 1000%nat) by reflexivity.
  set (loop := disconnect_loop ATTEMPTS res d) in *.
  set (rs := disconnect_results (events loop)) in *.
  cbv zeta in I1, I2, I3, I4, I5, I6, I7.
  assert (Hcount : (List.length (filter (fun x => differs x EdlSuccess) rs) <=
                    List.length rs)%nat) by apply filter_length_le.
  assert (Hrun : disconnect_phase res d =
                 mkRun (Done (if differs (last rs res) EdlSuccess then (-1)%Z else 0%Z))
                       (final loop)
                       ([EvCout "disconnecting... "] ++ events loop ++
                        (if differs (last rs res) EdlSuccess
                         then [EvCout ("disconnection error" ++ endl)] else []))).
  { unfold disconnect_phase, cout. rewrite bind_emit, bind_run. fold loop. rewrite I3.
    destruct (differs (last rs res) EdlSuccess); run; unfold prepend, ret;
      cbn [outcome final events app]; reflexivity. }
  rewrite Hrun. cbn [outcome events].
  assert (Hrs : disconnect_results
                  ([EvCout "disconnecting... "] ++ events loop ++
                   (if differs (last rs res) EdlSuccess
                    then [EvCout ("disconnection error" ++ endl)] else [])) = rs).
  { rewrite !disconnect_results_app. fold rs.
    destruct (differs (last rs res) EdlSuccess); cbn; apply app_nil_r. }
  rewrite Hrs, !slept_app, !forallb_app, I6, I7.
  destruct (differs (last rs res) EdlSuccess) eqn:Hd.
  - pose proof Hd as Hne. apply differs_true in Hne.
    pose proof Hne as He. apply equals_false in He. rewrite He.
    cbn [slept fold_right forallb teardown andb].
    repeat split; try lia; try assumption.
  - apply differs_false_eq in Hd. pose proof Hd as He. apply equals_true in He.
    rewrite He. cbn [slept fold_right forallb teardown andb].
    repeat split; try lia; try assumption; try congruence.
Qed.

End Teardown.

(** X12.  For every session the disconnect phase makes at least one and
    at most 1000 calls of [disconnectDevice]; every call but the last one
    failed; it ends with exit status 0 when the last call succeeded and
    -1 otherwise, the latter only after all 1000 attempts; and it spends
    at most 1000 ms in [Sleep]. *)
Theorem disconnect_phase_bounded :
  forall (D : Type) (edl : EDL D) (res : EdlErrorCode_t) (d : D),
    let r := disconnect_phase res d in
    let rs := disconnect_results (events r) in
    (1 <= List.length rs <= 1000)%nat /\
    Forall (fun x => x <> EdlSuccess) (removelast rs) /\
    outcome r = Done (if equals (last rs res) EdlSuccess then 0%Z else (-1)%Z) /\
    (last rs res <> EdlSuccess -> List.length rs = 1000%nat) /\
    slept (events r) <= 1000.
Proof.
  intros D edl res d r rs.
  destruct (disconnect_phase_account res d) as (H1 & H2 & H3 & H4 & H5 & _).
  repeat split; try assumption; apply H1.
Qed.

(** ** The whole run of main *)

Lemma setCommand_calls_app (t1 t2 : list Event) :
  setCommand_calls (t1 ++ t2) = setCommand_calls t1 ++ setCommand_calls t2.
Proof. apply flat_map_app. Qed.

Lemma acquisition_projections (tr : list Event) :
  forallb acquisition_event tr = true ->
  setCommand_calls tr = [] /\ existsb is_fopen tr = false /\ disconnect_results tr = [].
Proof.
  induction tr as [|e tr IH]; [repeat split|].
  cbn [forallb]. intros H. apply andb_true_iff in H. destruct H as [He Ht].
  destruct (IH Ht) as (H1 & H2 & H3).
  destruct e; try discriminate He; repeat split; assumption.
Qed.

Lemma passive_acquisition (tr : list Event) :
  forallb passive tr = true -> forallb acquisition_event tr = true.
Proof. apply forallb_impl. intros [] H; try discriminate H; reflexivity. Qed.

Section Whole.

Context {D : Type} {edl : EDL D}.
Variable EDL_CHANNEL_NUM : N.

Lemma poll_read_iteration_kind (d : D) :
  forallb acquisition_event (events (poll_read_iteration EDL_CHANNEL_NUM d)) = true /\
  slept (events (poll_read_iteration EDL_CHANNEL_NUM d)) <= 1.
Proof.
  rewrite poll_read_iteration_run.
  destruct (getDeviceStatus d) as [[res status] d1].
  pose proof (passive_acquisition _ (passive_advisories status)) as A.
  destruct (passive_projections _ (passive_advisories status)) as (_ & _ & _ & A4 & _).
  destruct (differs res EdlSuccess); [split; [reflexivity|cbn; lia]|].
  destruct (MINIMUM_DATA_PACKETS_TO_READ <=? availableDataPackets status)%N.
  - destruct (readData (availableDataPackets status) d1) as [[[res' n] data] d2].
    destruct (equals res' EdlDeviceNotConnectedError).
    + cbn [events forallb acquisition_event andb].
      change (EvGetDeviceStatus res status :: ?l) with ([EvGetDeviceStatus res status] ++ l).
      rewrite forallb_app, !slept_app, A, A4. split; [reflexivity|cbn; lia].
    + cbv zeta. cbn [events forallb acquisition_event andb].
      change (EvGetDeviceStatus res status :: ?l) with ([EvGetDeviceStatus res status] ++ l).
      change (EvReadData ?k res' n data :: ?l) with ([EvReadData k res' n data] ++ l).
      destruct (passive_projections _ (passive_shortfall res' n)) as (_ & _ & _ & S4 & _).
      destruct (passive_projections _ (passive_save_packets EDL_CHANNEL_NUM n data d2))
        as (_ & _ & _ & W4 & _).
      rewrite !forallb_app, !slept_app, A, A4, S4, W4,
        (passive_acquisition _ (passive_shortfall res' n)),
        (passive_acquisition _ (passive_save_packets EDL_CHANNEL_NUM n data d2)).
      split; [reflexivity|cbn; lia].
  - cbn [events forallb acquisition_event andb].
    change (EvGetDeviceStatus res status :: ?l) with ([EvGetDeviceStatus res status] ++ l).
    rewrite forallb_app, !slept_app, A, A4. split; [reflexivity|cbn; lia].
Qed.

Lemma poll_read_loop_kind (budget : nat) :
  forall (res : EdlErrorCode_t) (d : D),
    forallb acquisition_event (events (poll_read_loop EDL_CHANNEL_NUM budget res d)) = true /\
    slept (events (poll_read_loop EDL_CHANNEL_NUM budget res d)) <= N.of_nat budget.
Proof.
  induction budget as [|b IH]; intros res d; [split; [reflexivity|cbn; lia]|].
  rewrite poll_read_loop_S. cbv zeta. destruct (poll_read_iteration_kind d) as [Hk Hs].
  destruct (outcome (poll_read_iteration EDL_CHANNEL_NUM d)) as [[res'|res']|e];
    cbn [events]; try (split; [exact Hk|lia]).
  destruct (IH res' (final (poll_read_iteration EDL_CHANNEL_NUM d))) as [Hk' Hs'].
  rewrite forallb_app, slept_app, Hk, Hk'. split; [reflexivity|lia].
Qed.

Lemma readAndSaveSomeData_kind (d : D) :
  forallb acquisition_event (events (readAndSaveSomeData EDL_CHANNEL_NUM d)) = true /\
  slept (events (readAndSaveSomeData EDL_CHANNEL_NUM d)) <= 1500.
Proof.
  rewrite readAndSaveSomeData_run. destruct (purgeData d) as [res d1].
  destruct (differs res EdlSuccess); [split; [reflexivity|cbn; lia]|].
  cbv zeta. cbn [events].
  destruct (poll_read_loop_kind ITERATIONS res d1) as [Hk Hs].
  assert (HI : N.of_nat ITERATIONS = 1000) by reflexivity.
  rewrite !forallb_app, !slept_app, Hk.
  destruct (outcome (poll_read_loop EDL_CHANNEL_NUM ITERATIONS res d1)) as [[?|?]|?];
    (split; [reflexivity|cbn [slept fold_right]; lia]).
Qed.


End Whole.


Lemma last_any_default {A : Type} (l : list A) (d d' : A) :
  l <> [] -> last l d = last l d'.
Proof.
  destruct l as [|a l]; [congruence|]. intros _. rewrite !last_cons. reflexivity.
Qed.

Lemma readAndSaveSomeData_success {D : Type} {edl : EDL D} (EDL_CHANNEL_NUM : N) (d : D) :
  outcome (readAndSaveSomeData EDL_CHANNEL_NUM d) = Done EdlSuccess ->
  status_results (events (readAndSaveSomeData EDL_CHANNEL_NUM d)) = repeat EdlSuccess 1000 /\
  existsb fatal (events (readAndSaveSomeData EDL_CHANNEL_NUM d)) = false /\
  fclose_count (events (readAndSaveSomeData EDL_CHANNEL_NUM d)) = 0%nat.
Proof.
  rewrite readAndSaveSomeData_run.
  destruct (purgeData d) as [res d1].
  destruct (differs res EdlSuccess) eqn:Hres.
  { cbn [outcome]. intros [= ->]. discriminate Hres. }
  cbv zeta. cbn [outcome events]. intros H.
  pose proof (poll_read_loop_outcomes EDL_CHANNEL_NUM ITERATIONS res d1) as Hloop.
  destruct (outcome (poll_read_loop EDL_CHANNEL_NUM ITERATIONS res d1)) as [[r|r]|e];
    [|injection H as ->; congruence|discriminate H].
  destruct Hloop as (H1 & H2 & H3).
  rewrite !status_results_app, !existsb_app, !fclose_count_app, H1, H2, H3.
  cbn [status_results flat_map app existsb fatal orb fclose_count filter is_fclose
       List.length]. rewrite Hres, app_nil_r. repeat split.
Qed.

(** X10.  When [main] returns 0, the run was successful throughout:
    detection, connection, purge and all 1000 status queries succeeded,
    no read reported a lost connection, the data file was closed exactly
    once, and the last of at most 1000 calls of [disconnectDevice]
    succeeded. *)
Theorem exit_zero_means_success :
  forall (D : Type) (edl : EDL D) (EDL_CHANNEL_NUM : N) (d : D),
    let tr := events (main EDL_CHANNEL_NUM d) in
    exit_status (main EDL_CHANNEL_NUM d) = Some 0%Z ->
    existsb fatal tr = false /\
    status_results tr = repeat EdlSuccess 1000 /\
    fclose_count tr = 1%nat /\
    (1 <= List.length (disconnect_results tr) <= 1000)%nat /\
    last (disconnect_results tr) (EdlOtherError 0) = EdlSuccess.
Proof.
  intros D edl CH d tr. subst tr. unfold exit_status. rewrite main_run.
  destruct (detectDevices d) as [[res0 devices] d0].
  destruct (differs res0 EdlSuccess) eqn:H0; [discriminate|].
  destruct devices as [|first devices]; [discriminate|].
  destruct (connectDevice first d0) as [res1 d1].
  destruct (differs res1 EdlSuccess) eqn:H1; [discriminate|].
  cbv zeta.
  pose proof (readAndSaveSomeData_success CH (configured d1)) as Ha.
  destruct (readAndSaveSomeData_kind CH (configured d1)) as [Hk _].
  destruct (acquisition_projections _ Hk) as (_ & _ & K3).
  set (a := readAndSaveSomeData CH (configured d1)) in *.
  destruct (outcome a) as [res|e]; [|discriminate].
  destruct (differs res EdlSuccess) eqn:Hres; [discriminate|].
  apply differs_false_eq in Hres. subst res.
  destruct (Ha eq_refl) as (A1 & A2 & A3).
  destruct (disconnect_phase_account EdlSuccess (final a)) as (T1 & _ & T3 & _ & _ & Tt).
  destruct (teardown_projections _ Tt) as (_ & _ & P3 & _ & _ & P6 & P7 & _).
  set (t := disconnect_phase EdlSuccess (final a)) in *.
  cbv zeta in T1, T3. unfold prepend. cbn [outcome events]. rewrite T3. intros H.
  destruct (equals (last (disconnect_results (events t)) EdlSuccess) EdlSuccess) eqn:Hlast;
    [|discriminate H].
  apply equals_true in Hlast.
  rewrite !existsb_app, !status_results_app, !fclose_count_app, !disconnect_results_app,
    A1, A2, A3, P3, P6, P7, K3.
  cbn [connection_events existsb fatal status_results fclose_count disconnect_results
       flat_map filter is_fclose List.length app orb].
  rewrite H0, H1, !app_nil_r.
  repeat split; try apply T1.
  rewrite <- Hlast. apply last_any_default. intros Hnil. rewrite Hnil in T1.
  cbn in T1. lia.
Qed.

Lemma exit_zero_means_success_witness :
  existsb fatal (events (main 8 (reluctant 3))) = false /\
  fclose_count (events (main 8 (reluctant 3))) = 1%nat /\
  last (disconnect_results (events (main 8 (reluctant 3)))) (EdlOtherError 0) = EdlSuccess.
Proof.
  destruct (exit_zero_means_success Mock Mock_EDL 8 (reluctant 3)) as (H1 & _ & H3 & _ & H5).
  - vm_compute. reflexivity.
  - split; [exact H1|]. split; [exact H3|exact H5].
Defined.



(** X1.  [compensateDigitalOffset] does the same on every session and
    always runs to its end: it sends its five commands in program order,
    waits 5000 ms between the command that presses the compensation
    button and the one that releases it, and never looks at what the
    device answers.  Unlike the other two configuration phases it is not
    one batch of stacked requests applied by a last one: its third,
    fourth and fifth command each apply. *)
Theorem compensation_sequence :
  forall (D : Type) (edl : EDL D) (d : D),
    compensateDigitalOffset d =
    mkRun (Done tt) (deliver compensation_calls d)
          (map command_event (firstn 4 compensation_calls) ++ [EvSleep 5000] ++
           map command_event (skipn 4 compensation_calls)) /\
    map (fun call => snd call) compensation_calls = [false; false; true; true; true] /\
    ~ stacked_then_applied compensation_calls.
Proof.
  intros D edl d. split; [reflexivity|]. split; [reflexivity|].
  intros (stacked & applying & Heq & _ & Hall).
  destruct stacked as [|c1 [|c2 [|c3 stacked]]]; try discriminate Heq.
  injection Heq as _ _ <- _.
  inversion Hall as [|? ? _ Hall1]. inversion Hall1 as [|? ? _ Hall2].
  inversion Hall2 as [|? ? H3 _]. discriminate H3.
Qed.

(** X13.  The commands [main] sends are all or none: in every run the
    [setCommand] calls are either none at all, when [main] stops before
    the configuration and never opens the data file, or exactly the
    thirteen commands of the three configuration phases in program
    order (working modality, offset compensation, triangular protocol);
    neither the acquisition nor the disconnect phase sends a further
    command, and the file is opened at most once. *)
Theorem commands_all_or_none :
  forall (D : Type) (edl : EDL D) (EDL_CHANNEL_NUM : N) (d : D),
    let tr := events (main EDL_CHANNEL_NUM d) in
    setCommand_calls tr = (if existsb is_fopen tr then all_commands else []) /\
    (List.length (filter is_fopen tr) <= 1)%nat.
Proof.
  intros D edl CH d tr. subst tr. rewrite main_run.
  destruct (detectDevices d) as [[res0 devices] d0].
  destruct (differs res0 EdlSuccess); [split; [reflexivity|cbn; lia]|].
  destruct devices as [|first devices]; [split; [reflexivity|cbn; lia]|].
  destruct (connectDevice first d0) as [res1 d1].
  destruct (differs res1 EdlSuccess); [split; [reflexivity|cbn; lia]|].
  cbv zeta.
  destruct (readAndSaveSomeData_kind CH (configured d1)) as [Hk _].
  destruct (acquisition_projections _ Hk) as (K1 & K2 & _).
  assert (K4 : filter is_fopen (events (readAndSaveSomeData CH (configured d1))) = []).
  { clear - K2. induction (events (readAndSaveSomeData CH (configured d1))) as [|e l IH];
      [reflexivity|]. cbn [existsb] in K2. apply orb_false_iff in K2.
    destruct K2 as [He Hl]. cbn [filter]. rewrite He. apply IH. exact Hl. }
  set (a := readAndSaveSomeData CH (configured d1)) in *.
  destruct (outcome a) as [res|e]; [destruct (differs res EdlSuccess)|];
    unfold prepend; cbn [events];
    rewrite ?app_assoc; rewrite <- ?app_assoc;
    rewrite !setCommand_calls_app, !existsb_app, !filter_app, !length_app, K1, K2, K4.
  - split; [reflexivity|cbn; lia].
  - destruct (disconnect_phase_account res (final a)) as (_ & _ & _ & _ & _ & Tt).
    destruct (teardown_projections _ Tt) as (T1 & T2 & _).
    assert (T4 : filter is_fopen (events (disconnect_phase res (final a))) = []).
    { clear - T2. induction (events (disconnect_phase res (final a))) as [|e l IH];
        [reflexivity|]. cbn [existsb] in T2. apply orb_false_iff in T2.
      destruct T2 as [He Hl]. cbn [filter]. rewrite He. apply IH. exact Hl. }
    rewrite T1, T2, T4. split; [reflexivity|cbn; lia].
  - split; [reflexivity|cbn; lia].
Qed.

(** X14.  Every run of [main] spends at most 7500 ms in [Sleep]: 5000 ms
    for the offset compensation, at most 1500 ms in the acquisition and
    at most 1000 ms in the disconnect phase. *)
Theorem main_sleep_bounded :
  forall (D : Type) (edl : EDL D) (EDL_CHANNEL_NUM : N) (d : D),
    slept (events (main EDL_CHANNEL_NUM d)) <= 7500.
Proof.
  intros D edl CH d. rewrite main_run.
  destruct (detectDevices d) as [[res0 devices] d0].
  destruct (differs res0 EdlSuccess); [cbn; lia|].
  destruct devices as [|first devices]; [cbn; lia|].
  destruct (connectDevice first d0) as [res1 d1].
  destruct (differs res1 EdlSuccess); [cbn; lia|].
  cbv zeta.
  destruct (readAndSaveSomeData_kind CH (configured d1)) as [_ Hs].
  assert (Hsetup : slept setup_events = 5000) by reflexivity.
  assert (Hpre : slept (connection_events res0 (first :: devices) first res1) = 0)
    by reflexivity.
  set (a := readAndSaveSomeData CH (configured d1)) in *.
  destruct (outcome a) as [res|e]; [destruct (differs res EdlSuccess)|];
    unfold prepend; cbn [events]; rewrite !slept_app, Hsetup, Hpre.
  - cbn [slept fold_right]. lia.
  - destruct (disconnect_phase_account res (final a)) as (_ & _ & _ & _ & Tsl & _).
    cbn [slept fold_right]. lia.
  - lia.
Qed.

(** ** A read that comes back short *)



(** ** The value the acquisition returns *)

(** X16.  Whenever [readAndSaveSomeData] returns, the value it returns is
    the result of the last call it made to the device, be it
    [purgeData], [getDeviceStatus] or [readData]; there always is such a
    call, since the purge is never skipped. *)
Theorem returned_result_is_last_call :
  forall (D : Type) (edl : EDL D) (EDL_CHANNEL_NUM : N) (d : D) (res : EdlErrorCode_t),
    outcome (readAndSaveSomeData EDL_CHANNEL_NUM d) = Done res ->
    last (call_results (events (readAndSaveSomeData EDL_CHANNEL_NUM d))) EdlSuccess = res /\
    hd_error (call_results (events (readAndSaveSomeData EDL_CHANNEL_NUM d))) =
    Some (fst (purgeData d)).
Proof.
  intros D edl CH d res H. split; [apply readAndSaveSomeData_result; exact H|].
  rewrite readAndSaveSomeData_run.
  destruct (purgeData d) as [res0 d1].
  destruct (differs res0 EdlSuccess); reflexivity.
Qed.

Lemma returned_result_is_last_call_witness :
  last (call_results (events (readAndSaveSomeData 8 final_short))) EdlSuccess =
  EdlNotEnoughAvailableDataError.
Proof.
  destruct (returned_result_is_last_call Mock Mock_EDL 8 final_short
              EdlNotEnoughAvailableDataError) as [H _].
  - vm_compute. reflexivity.
  - exact H.
Defined.

(** ** Disconnection and the content of the file, for the whole program *)


(** X17.  [main] tries to disconnect only after an acquisition that
    succeeded throughout: in a run with at least one call of
    [disconnectDevice], all 1000 status queries succeeded, no read
    reported a lost connection, the data file was closed once and
    [main] returns.  After a failed acquisition, and after an exception,
    the device is left connected. *)
Theorem disconnect_only_after_success :
  forall (D : Type) (edl : EDL D) (EDL_CHANNEL_NUM : N) (d : D),
    let tr := events (main EDL_CHANNEL_NUM d) in
    disconnect_results tr <> [] ->
    status_results tr = repeat EdlSuccess 1000 /\
    existsb fatal tr = false /\
    fclose_count tr = 1%nat /\
    (exit_status (main EDL_CHANNEL_NUM d) = Some 0%Z \/
     exit_status (main EDL_CHANNEL_NUM d) = Some (-1)%Z).
Proof.
  intros D edl CH d tr. subst tr. unfold exit_status. rewrite main_run.
  destruct (detectDevices d) as [[res0 devices] d0].
  destruct (differs res0 EdlSuccess) eqn:H0; [intros H; contradiction H; reflexivity|].
  destruct devices as [|first devices]; [intros H; contradiction H; reflexivity|].
  destruct (connectDevice first d0) as [res1 d1].
  destruct (differs res1 EdlSuccess) eqn:H1; [intros H; contradiction H; reflexivity|].
  cbv zeta.
  pose proof (readAndSaveSomeData_success CH (configured d1)) as Ha.
  destruct (readAndSaveSomeData_kind CH (configured d1)) as [Hk _].
  destruct (acquisition_projections _ Hk) as (_ & _ & K3).
  set (a := readAndSaveSomeData CH (configured d1)) in *.
  destruct (outcome a) as [res|e].
  2:{ cbn [events]. rewrite !disconnect_results_app, K3. intros H.
      contradiction H; reflexivity. }
  destruct (differs res EdlSuccess) eqn:Hres.
  { cbn [events]. rewrite !disconnect_results_app, K3. intros H.
    contradiction H; reflexivity. }
  apply differs_false_eq in Hres. subst res.
  destruct (Ha eq_refl) as (A1 & A2 & A3).
  destruct (disconnect_phase_account EdlSuccess (final a)) as (_ & _ & T3 & _ & _ & Tt).
  destruct (teardown_projections _ Tt) as (_ & _ & P3 & _ & _ & P6 & P7 & _).
  set (t := disconnect_phase EdlSuccess (final a)) in *.
  cbv zeta in T3. unfold prepend. cbn [outcome events]. rewrite T3. intros _.
  rewrite !existsb_app, !status_results_app, !fclose_count_app, A1, A2, A3, P3, P6, P7.
  cbn [connection_events existsb fatal status_results fclose_count
       flat_map filter is_fclose List.length app orb].
  rewrite H0, H1, !app_nil_r.
  repeat split.
  destruct (equals (last (disconnect_results (events t)) EdlSuccess) EdlSuccess);
    [left|right]; reflexivity.
Qed.

Lemma disconnect_only_after_success_witness :
  status_results (events (main 8 stuck)) = repeat EdlSuccess 1000 /\
  fclose_count (events (main 8 stuck)) = 1%nat.
Proof.
  destruct (disconnect_only_after_success Mock Mock_EDL 8 stuck) as (H1 & _ & H3 & _).
  - vm_compute. discriminate.
  - split; [exact H1|exact H3].
Defined.


